(** * Quota ledger, payments and streaming presenter of the Telegram bot

    A shallow embedding of [src/bot/db.py] (the [users] table and
    [DB.update_user_field]) and of the quota, payment and streaming code of
    [src/bot/telegram_bot.py] ([check_rate_limit], the debits of the
    handlers, [start], [change_rate], the [check_pay] branch of
    [handle_callback_inline_query], the streaming loop of [prompt] and the
    [tts] handler), followed by the properties proved about them.

    Conventions.
    - Python integers are unbounded: they are [Z].
    - A [Date] is the number of its day; [datetime.now()] is passed in as
      the current day [today], so [datetime.now() + timedelta(days=n)]
      stored in the [Date] column [rate_end_date] is [today + n].
    - Text is [string]; a character stands for a code point below 256 and
      [len] is [String.length].
    - The [users] table is a finite map from the primary key [chat_id] to
      the row. *)

From Stdlib Require Import ZArith String Ascii List Bool Lia.
From Stdlib Require Import DecimalString DecimalPos DecimalZ.
From stdpp Require Import gmap strings.
Import ListNotations.

Local Open Scope string_scope.
Local Open Scope list_scope.
Local Open Scope Z_scope.

(** ** Account store ([src/bot/db.py]) *)

(** A row of [class User(Base)].  [last_pay_id] is a nullable [String]
    column; the five balances and [rate_end_date] are filled from the tier
    table whenever a row is created. *)
Record User : Type := mkUser {
  chat_id : Z;
  username : option string;
  gpt4_rate : Z;
  gpt35_rate : Z;
  dalle_rate : Z;
  whisper_rate : Z;
  tts_rate : Z;
  rate_end_date : Z;
  rate_type : string;
  is_free : bool;
  last_pay_id : option string;
  default_model : string;
  default_preset : string
}.

(** The column names [update_user_field] is called with, each with the
    type of the values the callers store in it. *)
Inductive column : Type :=
  | Col_gpt4_rate | Col_gpt35_rate | Col_dalle_rate | Col_whisper_rate
  | Col_tts_rate | Col_rate_end_date | Col_rate_type | Col_is_free
  | Col_last_pay_id | Col_default_model | Col_default_preset.

Definition column_type (c : column) : Type :=
  match c with
  | Col_gpt4_rate | Col_gpt35_rate | Col_dalle_rate | Col_whisper_rate
  | Col_tts_rate | Col_rate_end_date => Z
  | Col_rate_type | Col_default_model | Col_default_preset => string
  | Col_is_free => bool
  | Col_last_pay_id => option string
  end.

(** [setattr(user, field_name, new_value)] *)
Definition setattr (u : User) (c : column) : column_type c -> User :=
  match c return column_type c -> User with
  | Col_gpt4_rate => fun v =>
      mkUser (chat_id u) (username u) v (gpt35_rate u) (dalle_rate u)
        (whisper_rate u) (tts_rate u) (rate_end_date u) (rate_type u)
        (is_free u) (last_pay_id u) (default_model u) (default_preset u)
  | Col_gpt35_rate => fun v =>
      mkUser (chat_id u) (username u) (gpt4_rate u) v (dalle_rate u)
        (whisper_rate u) (tts_rate u) (rate_end_date u) (rate_type u)
        (is_free u) (last_pay_id u) (default_model u) (default_preset u)
  | Col_dalle_rate => fun v =>
      mkUser (chat_id u) (username u) (gpt4_rate u) (gpt35_rate u) v
        (whisper_rate u) (tts_rate u) (rate_end_date u) (rate_type u)
        (is_free u) (last_pay_id u) (default_model u) (default_preset u)
  | Col_whisper_rate => fun v =>
      mkUser (chat_id u) (username u) (gpt4_rate u) (gpt35_rate u)
        (dalle_rate u) v (tts_rate u) (rate_end_date u) (rate_type u)
        (is_free u) (last_pay_id u) (default_model u) (default_preset u)
  | Col_tts_rate => fun v =>
      mkUser (chat_id u) (username u) (gpt4_rate u) (gpt35_rate u)
        (dalle_rate u) (whisper_rate u) v (rate_end_date u) (rate_type u)
        (is_free u) (last_pay_id u) (default_model u) (default_preset u)
  | Col_rate_end_date => fun v =>
      mkUser (chat_id u) (username u) (gpt4_rate u) (gpt35_rate u)
        (dalle_rate u) (whisper_rate u) (tts_rate u) v (rate_type u)
        (is_free u) (last_pay_id u) (default_model u) (default_preset u)
  | Col_rate_type => fun v =>
      mkUser (chat_id u) (username u) (gpt4_rate u) (gpt35_rate u)
        (dalle_rate u) (whisper_rate u) (tts_rate u) (rate_end_date u) v
        (is_free u) (last_pay_id u) (default_model u) (default_preset u)
  | Col_is_free => fun v =>
      mkUser (chat_id u) (username u) (gpt4_rate u) (gpt35_rate u)
        (dalle_rate u) (whisper_rate u) (tts_rate u) (rate_end_date u)
        (rate_type u) v (last_pay_id u) (default_model u) (default_preset u)
  | Col_last_pay_id => fun v =>
      mkUser (chat_id u) (username u) (gpt4_rate u) (gpt35_rate u)
        (dalle_rate u) (whisper_rate u) (tts_rate u) (rate_end_date u)
        (rate_type u) (is_free u) v (default_model u) (default_preset u)
  | Col_default_model => fun v =>
      mkUser (chat_id u) (username u) (gpt4_rate u) (gpt35_rate u)
        (dalle_rate u) (whisper_rate u) (tts_rate u) (rate_end_date u)
        (rate_type u) (is_free u) (last_pay_id u) v (default_preset u)
  | Col_default_preset => fun v =>
      mkUser (chat_id u) (username u) (gpt4_rate u) (gpt35_rate u)
        (dalle_rate u) (whisper_rate u) (tts_rate u) (rate_end_date u)
        (rate_type u) (is_free u) (last_pay_id u) (default_model u) v
  end.

(** The [users] table. *)
Abbreviation DB := (gmap Z User).

(** What a Python call can end in: a value or a raised exception. *)
Inductive exn : Type :=
  | AttributeError      (* attribute of [None] *)
  | KeyError            (* missing dictionary key *)
  | IndexError          (* list index out of range *)
  | IntegrityError      (* duplicate primary key *)
  | DataError           (* a value the column type cannot hold *)
  | TransportError.     (* a Telegram call failed *)

Inductive result (A : Type) : Type :=
  | Done (a : A)
  | Raised (e : exn).
Arguments Done {A} a.
Arguments Raised {A} e.

(** [DB.get_user(chat_id=...)]: [filter_by(chat_id=chat_id).first()] *)
Definition get_user (db : DB) (cid : Z) : option User := db !! cid.

(** [DB.is_user_exists] *)
Definition is_user_exists (db : DB) (cid : Z) : bool :=
  match db !! cid with Some _ => true | None => false end.

(** What a [Column(Integer)] holds on PostgreSQL: a signed 32-bit integer. *)
Definition fits_integer (z : Z) : bool :=
  (-2147483648 <=? z) && (z <=? 2147483647).

(** The six [Integer] columns of a row, [chat_id] among them. *)
Definition row_fits (u : User) : bool :=
  fits_integer (chat_id u) && fits_integer (gpt4_rate u)
  && fits_integer (gpt35_rate u) && fits_integer (dalle_rate u)
  && fits_integer (whisper_rate u) && fits_integer (tts_rate u).

(** [DB.create_user]: [session.add(user); session.commit()].  The commit
    is refused, and no row is written, when an [Integer] column is given a
    value outside 32 bits, and when a row with the same primary key is
    there already. *)
Definition create_user (db : DB) (u : User) : result DB :=
  if row_fits u then
    match db !! chat_id u with
    | Some _ => Raised IntegrityError
    | None => Done (<[chat_id u := u]> db)
    end
  else Raised DataError.

(** [DB.update_user_field]: the table after [setattr] and [commit], for a
    value the column holds.  (An [Integer] column refuses a value outside
    32 bits; where a property speaks of the tier values that are stored,
    it names that bound.) *)
Definition update_user_field (db : DB) (cid : Z) (c : column)
    (new_value : column_type c) : DB :=
  match db !! cid with
  | Some user => <[cid := setattr user c new_value]> db
  | None => db
  end.

(** ** Tier table ([self.rates]) *)

(** One entry of the [rates] dictionary of the configuration. *)
Record Rate : Type := mkRate {
  r_name : string;
  r_gpt4_rate : Z;
  r_gpt35_rate : Z;
  r_dalle_rate : Z;
  r_whisper_rate : Z;
  r_tts_rate : Z;
  r_price : Z
}.

(** The dictionary in insertion order: [list(self.rates.keys())[n]] and
    the first price match of the payment loop both depend on the order. *)
Abbreviation Rates := (list (string * Rate)).

(** [self.rates[key]] *)
Fixpoint rates_get (rates : Rates) (key : string) : option Rate :=
  match rates with
  | [] => None
  | (k, r) :: rest => if String.eqb k key then Some r else rates_get rest key
  end.


(** ** Quota policy: [check_rate_limit] *)

(** The [rate_type] argument: the name of a balance column. *)
Inductive rate_kind : Type :=
  | gpt4_kind | gpt35_kind | dalle_kind | whisper_kind | tts_kind.

Definition rate_column (k : rate_kind) : column :=
  match k with
  | gpt4_kind => Col_gpt4_rate
  | gpt35_kind => Col_gpt35_rate
  | dalle_kind => Col_dalle_rate
  | whisper_kind => Col_whisper_rate
  | tts_kind => Col_tts_rate
  end.

(** [user.__dict__.get(rate_type)] for a balance column *)
Definition balance (u : User) (k : rate_kind) : Z :=
  match k with
  | gpt4_kind => gpt4_rate u
  | gpt35_kind => gpt35_rate u
  | dalle_kind => dalle_rate u
  | whisper_kind => whisper_rate u
  | tts_kind => tts_rate u
  end.

(** The wording chosen in the third branch of [check_rate_limit]. *)
Inductive exhausted_text : Type :=
  | TokensOver | ImagesOver | TranscriptionOver | SpeechOver.

(** [text] after the four [if]s of the third branch: a later match
    overrides an earlier one, and each column matches exactly one. *)
Definition exhausted_text_of (k : rate_kind) : exhausted_text :=
  match k with
  | gpt4_kind | gpt35_kind => TokensOver
  | dalle_kind => ImagesOver
  | whisper_kind => TranscriptionOver
  | tts_kind => SpeechOver
  end.

(** The three replies of [check_rate_limit], one per branch. *)
Inductive rejection : Type :=
  | SubscriptionEnded                         (* rate_end_date < today *)
  | NothingLeft                               (* not user.__dict__.get(rate_type) *)
  | BalanceUsedUp (text : exhausted_text).    (* user.__dict__.get(rate_type) <= 0 *)

(** [not user.__dict__.get(rate_type)]: the lookup is [None] when
    [rate_type] is left at its default [None], and falsy when the balance
    is [0]. *)
Definition balance_is_falsy (u : User) (rate_type : option rate_kind) : bool :=
  match rate_type with
  | None => true
  | Some k => Z.eqb (balance u k) 0
  end.

(** [check_rate_limit(update, chat_id, rate_type)] at day [today]:
    the pair [(user, okay)] and the reply sent, if any.  A missing row makes
    [user.rate_end_date] raise. *)
Definition check_rate_limit (db : DB) (today : Z) (cid : Z)
    (rate_type : option rate_kind) : result (User * bool * option rejection) :=
  match get_user db cid with
  | None => Raised AttributeError
  | Some user =>
      if Z.ltb (rate_end_date user) today then
        Done (user, false, Some SubscriptionEnded)
      else if balance_is_falsy user rate_type then
        Done (user, false, Some NothingLeft)
      else
        match rate_type with
        | Some k =>
            if Z.leb (balance user k) 0 then
              Done (user, false, Some (BalanceUsedUp (exhausted_text_of k)))
            else Done (user, true, None)
        | None => Done (user, true, None)
        end
  end.

(** The reasons of the [authorize] contract. *)
Inductive Reason : Type := EXPIRED | NO_ENTITLEMENT | EXHAUSTED.

(** The reason a reply gives, read off its text.  The first reply says
    that the subscription has ended.  The second says that the tokens have
    run out, in the words the third uses for a token column; the third
    says that the tokens, images, transcription time or speech characters
    have run out.  No reply of [check_rate_limit] speaks of a missing
    entitlement: an allotment of zero is a balance of [0]. *)
Definition reason_of (r : rejection) : Reason :=
  match r with
  | SubscriptionEnded => EXPIRED
  | NothingLeft => EXHAUSTED
  | BalanceUsedUp _ => EXHAUSTED
  end.

(** ** Debit *)

(** The debit at the end of a handler: [user] is the row that
    [check_rate_limit] read for [update.effective_chat.id], the write goes
    to [update.message.from_user.id]:
    [update_user_field(from_user.id, column, user.column - amount)]. *)
Definition debit_row (db : DB) (user : User) (from_user_id : Z)
    (k : rate_kind) (amount : Z) : DB :=
  match k with
  | gpt4_kind => update_user_field db from_user_id Col_gpt4_rate (gpt4_rate user - amount)
  | gpt35_kind => update_user_field db from_user_id Col_gpt35_rate (gpt35_rate user - amount)
  | dalle_kind => update_user_field db from_user_id Col_dalle_rate (dalle_rate user - amount)
  | whisper_kind => update_user_field db from_user_id Col_whisper_rate (whisper_rate user - amount)
  | tts_kind => update_user_field db from_user_id Col_tts_rate (tts_rate user - amount)
  end.

(** One billable request reduced to its ledger effect: read the row of the
    chat, write the decremented balance to the sender's row.  This is
    what [prompt] does to the table when the request is answered and
    delivered ([answered_request_is_a_debit]). *)
Definition debit (db : DB) (effective_chat_id from_user_id : Z)
    (k : rate_kind) (amount : Z) : result DB :=
  match get_user db effective_chat_id with
  | None => Raised AttributeError
  | Some user => Done (debit_row db user from_user_id k amount)
  end.

(** [n] requests one after the other. *)
Fixpoint debits (db : DB) (effective_chat_id from_user_id : Z)
    (k : rate_kind) (amounts : list Z) : result DB :=
  match amounts with
  | [] => Done db
  | a :: rest =>
      match debit db effective_chat_id from_user_id k a with
      | Done db' => debits db' effective_chat_id from_user_id k rest
      | Raised e => Raised e
      end
  end.

(** ** The outside world: Telegram calls, sleeps and prints *)

(** How a Telegram call ends: normally, or with [telegram.error.RetryAfter]
    (carrying [retry_after]), [TimedOut], [BadRequest], or another
    exception. *)
Inductive outcome : Type :=
  | Ok
  | RetryAfter (retry_after : Z)
  | TimedOut
  | BadRequest
  | Failed.

(** Messages with a fixed text. *)
Inductive notice : Type :=
  | Welcome                                   (* start: trial activated *)
  | NewUser                                   (* start: note to the admin group *)
  | Help
  | Rejected (r : rejection)                  (* check_rate_limit *)
  | PaymentNotReceived (with_buttons : bool)
  | AlreadyPaid
  | ThanksPaid (rate_name : string)
  | Purchase (rate_type : string) (summ : Z)  (* note to the admin group *)
  | RateChanged (rate_name : string)
  | InvalidRateNumber
  | UserNotFound
  | ChatFail
  | TtsFail.

Inductive call : Type :=
  | reply_text (text : string) (reply_to : bool) (parse_markdown : bool)
  | edit_message_with_retry (message_id : nat) (text : string)
      (markdown : option bool)                (* [None]: the default *)
  | delete_message (message_id : nat)
  | reply_chat_action
  | reply_voice
  | handle_direct_result
  | send_notice (n : notice).

Inductive delay : Type :=
  | Seconds (retry_after : Z)   (* asyncio.sleep(e.retry_after) *)
  | HalfSecond                  (* asyncio.sleep(0.5) *)
  | Hundredth.                  (* asyncio.sleep(0.01) *)

Inductive event : Type :=
  | Called (c : call) (o : outcome)
  | Slept (d : delay)
  | PrintedException                          (* print(e) *)
  | PrintedSum (summ : Z)                     (* print(summ) *)
  | Logged                                    (* logging.exception(e) *)
  | Uncaught (e : exn).                       (* the handler ends by raising *)

(** The world a handler runs in: the outcomes the next Telegram calls will
    have (calls beyond the list succeed), the id of the next message
    Telegram creates, and everything done so far, oldest first. *)
Record world : Type := mkWorld {
  pending : list outcome;
  next_message_id : nat;
  log : list event
}.

Definition record (w : world) (e : event) : world :=
  mkWorld (pending w) (next_message_id w) (log w ++ [e]).

(** One Telegram call. *)
Definition transport (w : world) (c : call) : outcome * world :=
  match pending w with
  | [] => (Ok, mkWorld [] (next_message_id w) (log w ++ [Called c Ok]))
  | o :: rest => (o, mkWorld rest (next_message_id w) (log w ++ [Called c o]))
  end.

(** A call that creates a message: on success the new message's id. *)
Definition transport_new (w : world) (c : call) : outcome * option nat * world :=
  let '(o, w') := transport w c in
  match o with
  | Ok => (Ok, Some (next_message_id w'),
           mkWorld (pending w') (S (next_message_id w')) (log w'))
  | _ => (o, None, w')
  end.

Definition sleep (w : world) (d : delay) : world := record w (Slept d).

(** ** Renewal: [start], [change_rate] and the [check_pay] callback *)

(** [start]: the first contact creates the row with the [base] tier for
    three days; the two messages are sent before the row is written, and
    only a [BadRequest] of the second one is caught. *)
Definition start (rates : Rates) (today : Z) (db : DB) (w : world)
    (cid : Z) (uname : option string) : DB * world :=
  if is_user_exists db cid then (db, snd (transport w (send_notice Help)))
  else
    let '(o1, w1) := transport w (send_notice Welcome) in
    match o1 with
    | Ok =>
        let '(o2, w2) := transport w1 (send_notice NewUser) in
        let created (w' : world) :=
          match rates_get rates "base" with
          | None => (db, record w' (Uncaught KeyError))
          | Some base =>
              match create_user db
                      (mkUser cid uname (r_gpt4_rate base) (r_gpt35_rate base)
                         (r_dalle_rate base) (r_whisper_rate base)
                         (r_tts_rate base) (today + 3) "base" true None
                         "gpt35" "assistant") with
              | Done db' => (db', w')
              | Raised e => (db, record w' (Uncaught e))
              end
          end in
        match o2 with
        | Ok => created w2
        | BadRequest => created (record w2 PrintedException)
        | _ => (db, record w2 (Uncaught TransportError))
        end
    | _ => (db, record w1 (Uncaught TransportError))
    end.

(** [get_user(username=...)]: the first row with that name. *)
Definition get_user_by_username (db : DB) (name : string) : option User :=
  snd <$> List.find
    (fun kv => match username (snd kv) with
               | Some n => String.eqb n name
               | None => false
               end) (map_to_list db).

(** The eight writes of [change_rate], in the order of the source. *)
Definition change_rate_writes (db : DB) (today : Z) (cid : Z)
    (key : string) (rate : Rate) : DB :=
  let db := update_user_field db cid Col_gpt4_rate (r_gpt4_rate rate) in
  let db := update_user_field db cid Col_gpt35_rate (r_gpt35_rate rate) in
  let db := update_user_field db cid Col_dalle_rate (r_dalle_rate rate) in
  let db := update_user_field db cid Col_whisper_rate (r_whisper_rate rate) in
  let db := update_user_field db cid Col_tts_rate (r_tts_rate rate) in
  let db := update_user_field db cid Col_rate_end_date (today + 30) in
  let db := update_user_field db cid Col_rate_type key in
  update_user_field db cid Col_is_free false.

(** [change_rate] once the sender is known to be an admin and the message
    has three words: [rate_number] is the parsed third word ([None] when it
    is not made of digits), [user_identifier] the second one, a chat id when
    it is made of digits and a user name otherwise. *)
Definition change_rate (rates : Rates) (today : Z) (db : DB) (w : world)
    (user_identifier : Z + string) (rate_number : option Z) : DB * world :=
  match rate_number with
  | Some n =>
      if (Z.eqb n 1 || Z.eqb n 2 || Z.eqb n 3 || Z.eqb n 4)%bool then
        match nth_error rates (Z.to_nat (n - 1)) with
        | None => (db, record w (Uncaught IndexError))
        | Some (key, rate) =>
            let user := match user_identifier with
                        | inl cid => get_user db cid
                        | inr name => get_user_by_username db name
                        end in
            match user with
            | None => (db, snd (transport w (send_notice UserNotFound)))
            | Some user =>
                (change_rate_writes db today (chat_id user) key rate,
                 snd (transport w (send_notice (RateChanged (r_name rate)))))
            end
        end
      else (db, snd (transport w (send_notice InvalidRateNumber)))
  | None => (db, snd (transport w (send_notice InvalidRateNumber)))
  end.

(** [str(n)] of an integer, which is what reaches the [String] column
    [last_pay_id] when [payment_id] is stored. *)
Definition str_of_int (n : Z) : string := NilZero.string_of_int (Z.to_int n).

(** [int(s)] of a stored string: [None] stands for [ValueError].  Plain
    decimal renderings (an optional [-] and digits) are read; that is
    everything [str_of_int] writes.  ([int] also reads a leading [+],
    blanks around the number and underscores between digits, which no
    [last_pay_id] written by the handlers has.) *)
Definition int_of_str (s : string) : option Z :=
  option_map Z.of_int (NilZero.int_of_string s).

(** The answer of the payment gateway to [OpStateExt], as far as the
    handler looks at it: no [State] element, or its [Code] together with
    [int(float(Info.OutSum))]. *)
Inductive OperationStateResponse : Type :=
  | NoState
  | State (code : string) (summ : Z).

(** The comparison [payment_id == int(get_user(...).__dict__["last_pay_id"])]
    inside the [try]: a missing row, a [NULL] column and a string that is
    not a number all raise. *)
Definition is_last_payment (db : DB) (user_id payment_id : Z) : option bool :=
  match get_user db user_id with
  | None => None
  | Some user =>
      match last_pay_id user with
      | None => None
      | Some s =>
          match int_of_str s with
          | None => None
          | Some n => Some (Z.eqb payment_id n)
          end
      end
  end.

(** The loop over [self.rates.keys()] that stops at the first tier whose
    price is the amount paid. *)
Fixpoint find_rate (rates : Rates) (summ : Z) : option (string * Rate) :=
  match rates with
  | [] => None
  | (key, r) :: rest =>
      if Z.eqb (r_price r) summ then Some (key, r) else find_rate rest summ
  end.

(** The nine writes after a matching payment, in the order of the source. *)
Definition payment_writes (db : DB) (today : Z) (user_id payment_id : Z)
    (key : string) (rate : Rate) : DB :=
  let db := update_user_field db user_id Col_gpt4_rate (r_gpt4_rate rate) in
  let db := update_user_field db user_id Col_gpt35_rate (r_gpt35_rate rate) in
  let db := update_user_field db user_id Col_dalle_rate (r_dalle_rate rate) in
  let db := update_user_field db user_id Col_whisper_rate (r_whisper_rate rate) in
  let db := update_user_field db user_id Col_tts_rate (r_tts_rate rate) in
  let db := update_user_field db user_id Col_rate_end_date (today + 30) in
  let db := update_user_field db user_id Col_rate_type key in
  let db := update_user_field db user_id Col_is_free false in
  update_user_field db user_id Col_last_pay_id (Some (str_of_int payment_id)).

(** What follows the duplicate test ("everything went well"): the tier is
    looked up by the amount and applied, or the amount is printed. *)
Definition apply_confirmed (rates : Rates) (today : Z) (db : DB) (w : world)
    (user_id payment_id summ : Z) : DB * world :=
  match find_rate rates summ with
  | Some (key, rate) =>
      let db' := payment_writes db today user_id payment_id key rate in
      let '(o1, w1) := transport w (send_notice (ThanksPaid (r_name rate))) in
      match o1 with
      | Ok =>
          let '(o2, w2) := transport w1 (send_notice (Purchase key summ)) in
          match o2 with
          | Ok => (db', w2)
          | _ => (db', record w2 (Uncaught TransportError))
          end
      | _ => (db', record w1 (Uncaught TransportError))
      end
  | None => (db, record w (PrintedSum summ))
  end.

(** The [check_pay] branch of [handle_callback_inline_query].  The [try]
    around the duplicate test also holds the "already paid" message and the
    [return] after it; its [except Exception] prints and goes on. *)
Definition check_pay (rates : Rates) (today : Z) (db : DB) (w : world)
    (user_id payment_id : Z) (response : OperationStateResponse) : DB * world :=
  match response with
  | NoState => (db, snd (transport w (send_notice (PaymentNotReceived true))))
  | State code summ =>
      if String.eqb code "100" then
        match is_last_payment db user_id payment_id with
        | Some true =>
            let '(o, w1) := transport w (send_notice AlreadyPaid) in
            match o with
            | Ok => (db, w1)
            | _ => apply_confirmed rates today db (record w1 PrintedException)
                     user_id payment_id summ
            end
        | Some false => apply_confirmed rates today db w user_id payment_id summ
        | None => apply_confirmed rates today db (record w PrintedException)
                    user_id payment_id summ
        end
      else (db, snd (transport w (send_notice (PaymentNotReceived false))))
  end.

(** ** Streaming presenter: the [async for] loop of [prompt] *)

(** The helpers of [utils] the loop calls.  [utils.py] is outside this
    development, so the loop is written over any such helpers.
    [get_stream_cutoff_values] is taken for the update being answered. *)
Record utils : Type := mkUtils {
  split_into_chunks : string -> list string;
  get_stream_cutoff_values : string -> Z;
  is_direct_result : string -> bool
}.

(** The second component of a stream item: ["not_finished"], or the token
    count that comes with the last item. *)
Inductive tokens : Type :=
  | not_finished
  | total (n : Z).

(** [tokens != "not_finished"] *)
Definition finished (tok : tokens) : bool :=
  match tok with not_finished => false | total _ => true end.

Definition len (s : string) : Z := Z.of_nat (String.length s).

(** [str.isspace] on the code points below 256. *)
Definition isspace (c : ascii) : bool :=
  let n := nat_of_ascii c in
  (((9 <=? n) && (n <=? 13)) || ((28 <=? n) && (n <=? 32))
   || (n =? 133) || (n =? 160))%nat.

(** [len(content.strip()) == 0] *)
Fixpoint is_blank (s : string) : bool :=
  match s with
  | EmptyString => true
  | String c rest => isspace c && is_blank rest
  end.

(** The local variables of the loop. *)
Record loop_state : Type := mkLoop {
  i : nat;
  prev : string;
  sent_message : option nat;     (* the id of the live message *)
  backoff : Z;
  stream_chunk : nat;
  total_tokens : Z
}.

(** [i = 0; prev = ""; sent_message = None; backoff = 0; stream_chunk = 0]
    and [total_tokens = 0] *)
Definition initial_loop : loop_state := mkLoop 0 "" None 0 0 0.

Definition set_prev (s : loop_state) (content : string) : loop_state :=
  mkLoop (i s) content (sent_message s) (backoff s) (stream_chunk s) (total_tokens s).

Definition set_sent_message (s : loop_state) (m : option nat) : loop_state :=
  mkLoop (i s) (prev s) m (backoff s) (stream_chunk s) (total_tokens s).

(** [backoff += 5] *)
Definition add_backoff (s : loop_state) : loop_state :=
  mkLoop (i s) (prev s) (sent_message s) (backoff s + 5) (stream_chunk s) (total_tokens s).

(** [stream_chunk += 1] *)
Definition next_stream_chunk (s : loop_state) : loop_state :=
  mkLoop (i s) (prev s) (sent_message s) (backoff s) (S (stream_chunk s)) (total_tokens s).

(** The end of the loop body:
    [i += 1; if tokens != "not_finished": total_tokens = int(tokens)] *)
Definition finish_iteration (s : loop_state) (tok : tokens) : loop_state :=
  mkLoop (S (i s)) (prev s) (sent_message s) (backoff s) (stream_chunk s)
    (match tok with not_finished => total_tokens s | total n => n end).

(** How an iteration ends: the loop goes on with the next item (by
    [continue] or by reaching the end of the body), the handler returns,
    or an exception leaves the loop for the [except] of [prompt]. *)
Inductive flow : Type :=
  | Continue (s : loop_state) (w : world)
  | Returned (w : world)
  | Aborted (w : world).

(** [stream_chunks[-1]] and [stream_chunks[-2]] of a list of two or more. *)
Definition last_chunk (chunks : list string) : string := List.last chunks "".

Definition penultimate_chunk (chunks : list string) : string :=
  nth (length chunks - 2)%nat chunks "".

(** The block under [if stream_chunk != len(stream_chunks) - 1]: the
    finished segment is written into the live message, a new live message
    is opened; both calls are wrapped in [try ... except: pass]. *)
Definition segment_rollover (s : loop_state) (w : world)
    (stream_chunks : list string) (content : string) : flow :=
  let s1 := next_stream_chunk s in
  let w1 := match sent_message s1 with
            | Some m => snd (transport w
                (edit_message_with_retry m (penultimate_chunk stream_chunks) None))
            | None => w                        (* sent_message.message_id raises *)
            end in
  let '(_, m, w2) := transport_new w1
        (reply_text (if 0 <? len content then content else "...") false false) in
  match m with
  | Some id => Continue (set_sent_message s1 (Some id)) w2
  | None => Continue s1 w2
  end.

(** The branch [if i == 0]: delete a live message left by a rollover, send
    the partial as a new message; [except: continue]. *)
Definition first_send (s : loop_state) (w : world) (content : string)
    (tok : tokens) : flow :=
  let '(deleted, w1) := match sent_message s with
                        | Some m => transport w (delete_message m)
                        | None => (Ok, w)
                        end in
  match deleted with
  | Ok =>
      let '(_, m, w2) := transport_new w1 (reply_text content true false) in
      match m with
      | Some id => Continue (finish_iteration (set_sent_message s (Some id)) tok) w2
      | None => Continue s w2
      end
  | _ => Continue s w1
  end.

(** The branch [elif abs(len(content) - len(prev)) > cutoff or tokens !=
    "not_finished"]: [prev = content], then the edit inside [try]; each of
    the three handlers adds 5 to [backoff] and ends in [continue]. *)
Definition live_edit (s : loop_state) (w : world) (content : string)
    (tok : tokens) : flow :=
  let s1 := set_prev s content in
  match sent_message s1 with
  | None => Continue (add_backoff s1) w        (* sent_message.message_id raises *)
  | Some m =>
      let '(o, w1) := transport w
            (edit_message_with_retry m content (Some (finished tok))) in
      match o with
      | Ok => Continue (finish_iteration s1 tok) (sleep w1 Hundredth)
      | RetryAfter t => Continue (add_backoff s1) (sleep w1 (Seconds t))
      | TimedOut => Continue (add_backoff s1) (sleep w1 HalfSecond)
      | _ => Continue (add_backoff s1) w1
      end
  end.

(** [abs(len(content) - len(prev)) > cutoff or tokens != "not_finished"],
    with [cutoff = get_stream_cutoff_values(update, content) + backoff] *)
Definition edit_due (U : utils) (s : loop_state) (content : string)
    (tok : tokens) : bool :=
  (get_stream_cutoff_values U content + backoff s
     <? Z.abs (len content - len (prev s))) || finished tok.

(** One iteration of [async for content, tokens in stream_response]. *)
Definition loop_body (U : utils) (s : loop_state) (w : world)
    (item : string * tokens) : flow :=
  let '(content, tok) := item in
  if is_direct_result U content then
    let '(o, w1) := transport w handle_direct_result in
    match o with
    | Ok => Returned w1                 (* return await handle_direct_result(...) *)
    | _ => Aborted w1
    end
  else if is_blank content then Continue s w
  else
    let stream_chunks := split_into_chunks U content in
    let several := (1 <? length stream_chunks)%nat in
    let content := if several then last_chunk stream_chunks else content in
    if several && negb (stream_chunk s =? length stream_chunks - 1)%nat then
      segment_rollover s w stream_chunks content
    else if (i s =? 0)%nat then first_send s w content tok
    else if edit_due U s content tok then live_edit s w content tok
    else Continue (finish_iteration s tok) w.

(** The loop over the items the stream yields. *)
Fixpoint stream_loop (U : utils) (s : loop_state) (w : world)
    (items : list (string * tokens)) : flow :=
  match items with
  | [] => Continue s w
  | item :: rest =>
      match loop_body U s w item with
      | Continue s' w' => stream_loop U s' w' rest
      | Returned w' => Returned w'
      | Aborted w' => Aborted w'
      end
  end.

(** ** The handlers [prompt] and [tts] *)

(** What the handlers read from the update. *)
Record Update : Type := mkUpdate {
  effective_chat_id : Z;          (* update.effective_chat.id *)
  from_user_id : Z;               (* update.message.from_user.id *)
  is_new_message : bool;          (* not edited, present, not sent via a bot *)
  passes_group_filter : bool      (* private chat, or trigger keyword / reply to the bot *)
}.

(** What the chat collaborator does with the request: with
    [config["stream"]] the items of [get_chat_response_stream], possibly
    cut short by an exception; without it the pair of [get_chat_response],
    or an exception ([None]). *)
Inductive generation : Type :=
  | Streamed (items : list (string * tokens)) (raises : bool)
  | Answered (r : option (string * Z)).

(** Modelled from the spec: [wrap_with_indicator] of [utils], whose source
    is outside this development.  It runs the coroutine it is given while a
    chat action is shown; a failure of the generation inside it is "caught,
    logged, and reported to the user as a localized failure message", which
    the caller's [except] does, so the coroutine's exception reaches the
    caller. *)
Definition wrap_with_indicator {A : Type} (coroutine : world -> A) (w : world) : A :=
  coroutine w.

(** The [for index, chunk in enumerate(chunks)] of [_reply]: Markdown
    first, plain text on failure, and the second failure is raised
    ([false]). *)
Fixpoint send_chunks (w : world) (first : bool) (chunks : list string)
    : bool * world :=
  match chunks with
  | [] => (true, w)
  | chunk :: rest =>
      let '(o, w1) := transport w (reply_text chunk first true) in
      match o with
      | Ok => send_chunks w1 false rest
      | _ =>
          let '(o2, w2) := transport w1 (reply_text chunk first false) in
          match o2 with
          | Ok => send_chunks w2 false rest
          | _ => (false, w2)
          end
      end
  end.

(** The [except Exception as e] at the end of [prompt]. *)
Definition chat_fail (db : DB) (w : world) : DB * world :=
  let '(o, w1) := transport (record w Logged) (send_notice ChatFail) in
  match o with
  | Ok => (db, w1)
  | _ => (db, record w1 (Uncaught TransportError))
  end.

(** [user.rate_type == "gpt-4"] picks the column that is checked and
    charged. *)
Definition chat_kind (user : User) : rate_kind :=
  if String.eqb (rate_type user) "gpt-4" then gpt4_kind else gpt35_kind.

(** The rejection of [check_rate_limit] is sent with [reply_text], outside
    any [try]. *)
Definition send_rejection (w : world) (r : option rejection) : outcome * world :=
  match r with
  | Some r => transport w (send_notice (Rejected r))
  | None => (Ok, w)
  end.

(** The body of the [try] of [prompt], from the generation to the debit. *)
Definition answer (U : utils) (db : DB) (w : world) (upd : Update)
    (user : User) (gen : generation) : DB * world :=
  match gen with
  | Streamed items raises =>
      let '(o, w1) := transport w reply_chat_action in
      match o with
      | Ok =>
          match stream_loop U initial_loop w1 items with
          | Returned w2 => (db, w2)
          | Aborted w2 => chat_fail db w2
          | Continue s w2 =>
              if raises then chat_fail db w2
              else (debit_row db user (from_user_id upd) (chat_kind user)
                      (total_tokens s), w2)
          end
      | _ => chat_fail db w1
      end
  | Answered r =>
      wrap_with_indicator (fun w =>
        match r with
        | None => chat_fail db w
        | Some (response, total_tokens) =>
            if is_direct_result U response then
              let '(o, w1) := transport w handle_direct_result in
              match o with
              | Ok => (debit_row db user (from_user_id upd) (chat_kind user)
                         total_tokens, w1)
              | _ => chat_fail db w1
              end
            else
              let '(sent, w1) := send_chunks w true (split_into_chunks U response) in
              if sent then
                (debit_row db user (from_user_id upd) (chat_kind user)
                   total_tokens, w1)
              else chat_fail db w1
        end) w
  end.

(** [prompt] *)
Definition prompt (U : utils) (today : Z) (db : DB) (w : world)
    (upd : Update) (gen : generation) : DB * world :=
  if negb (is_new_message upd) then (db, w)
  else
    match get_user db (effective_chat_id upd) with
    | None => (db, record w (Uncaught AttributeError))
    | Some user =>
        match check_rate_limit db today (effective_chat_id upd)
                (Some (chat_kind user)) with
        | Raised e => (db, record w (Uncaught e))
        | Done (user, okay, rejected) =>
            let '(o, w1) := send_rejection w rejected in
            match o with
            | Ok =>
                if negb okay then (db, w1)
                else if negb (passes_group_filter upd) then (db, w1)
                else answer U db w1 upd user gen
            | _ => (db, record w1 (Uncaught TransportError))
            end
        end
    end.

(** The [except Exception as e] of [_generate] in [tts]. *)
Definition tts_fail (db : DB) (w : world) : DB * world :=
  let '(o, w1) := transport (record w Logged) (send_notice TtsFail) in
  match o with
  | Ok => (db, w1)
  | _ => (db, record w1 (Uncaught TransportError))
  end.

(** [tts]: [allowed] stands for the configuration switch and the budget
    check, [query_empty] for [tts_query == ""], [speech] for the result of
    [generate_speech]: the length of the text, or an exception ([None]). *)
Definition tts (today : Z) (db : DB) (w : world) (upd : Update)
    (allowed query_empty : bool) (speech : option Z) : DB * world :=
  if negb allowed then (db, w)
  else
    match check_rate_limit db today (effective_chat_id upd) (Some tts_kind) with
    | Raised e => (db, record w (Uncaught e))
    | Done (user, okay, rejected) =>
        let '(o, w1) := send_rejection w rejected in
        match o with
        | Ok =>
            if negb okay then (db, w1)
            else if query_empty then (db, snd (transport w1 (send_notice Help)))
            else
              wrap_with_indicator (fun w =>
                match speech with
                | None => tts_fail db w
                | Some text_length =>
                    let '(o, w2) := transport w reply_voice in
                    match o with
                    | Ok => (debit_row db user (from_user_id upd) tts_kind
                               text_length, w2)
                    | _ => tts_fail db w2
                    end
                end) w1
        | _ => (db, record w1 (Uncaught TransportError))
        end
    end.

(** ** A concrete configuration *)

(** Modelled from the spec: [split_into_chunks] of [utils] splits "into
    fixed-size chunks at the transport's length cap", 4096 characters.
    [chunk] is the chunk being filled, in reverse, and [room] the number of
    characters it can still take. *)
Fixpoint chunks_from (cap room : nat) (chunk : list ascii) (text : string)
    : list string :=
  match text with
  | EmptyString =>
      match chunk with
      | [] => []
      | _ => [string_of_list_ascii (rev chunk)]
      end
  | String c rest =>
      match room with
      | O => string_of_list_ascii (rev chunk) :: chunks_from cap (cap - 1) [c] rest
      | S room' => chunks_from cap room' (c :: chunk) rest
      end
  end.

Definition fixed_size_chunks (text : string) : list string :=
  chunks_from 4096 4096 [] text.

(** Helpers for running the loop on examples: chunks of 4096 characters,
    a cutoff of 15 characters whatever the content, and no content taken
    for a direct result. *)
Definition sample_utils : utils :=
  mkUtils fixed_size_chunks (fun _ => 15) (fun _ => false).

(** A world in which nothing has happened yet. *)
Definition fresh_world (outcomes : list outcome) : world := mkWorld outcomes 0 [].

(** A tier table of four entries, the number [change_rate] offers; the
    configuration file is outside this development and the figures are
    examples. *)
Definition sample_rates : Rates :=
  [ ("base", mkRate "Basic" 0 5 10 10 1000 290);
    ("pro", mkRate "Pro" 0 100000 50 60 20000 590);
    ("gpt-4", mkRate "GPT-4" 50000 200000 100 120 50000 1490);
    ("unlimited", mkRate "Unlimited" 500000 1000000 300 300 100000 2990) ].

(** A trial account as [start] creates it from [sample_rates], valid up
    to day 100. *)
Definition sample_user (cid : Z) : User :=
  mkUser cid (Some "alice") 0 5 10 10 1000 100 "base" true None "gpt35" "assistant".

(** ** Slices, and [mask_api_key] *)

(** How [s[a:b]] reads an index on a sequence of length [n]: a negative
    index counts from the end, and the result is brought into [0 .. n]. *)
Definition slice_index (n : nat) (k : Z) : nat :=
  Z.to_nat (Z.max 0 (Z.min (Z.of_nat n) (if k <? 0 then k + Z.of_nat n else k))).

(** [l[start:stop]], either bound possibly left out. *)
Definition py_slice {A : Type} (l : list A) (start stop : option Z) : list A :=
  let n := length l in
  let lo := match start with None => 0%nat | Some k => slice_index n k end in
  let hi := match stop with None => n | Some k => slice_index n k end in
  firstn (hi - lo) (skipn lo l).

Definition str_slice (s : string) (start stop : option Z) : string :=
  string_of_list_ascii (py_slice (list_ascii_of_string s) start stop).

(** [mask_api_key]: [api_key[:6] + "..." + api_key[-4:]] *)
Definition mask_api_key (api_key : string) : string :=
  (str_slice api_key None (Some 6) ++ "..."
   ++ str_slice api_key (Some (-4)) None)%string.

(** ** The assistant menu and the preference callbacks *)

(** An entry of [presets.json], as far as the code reads it. *)
Record Preset : Type := mkPreset {
  p_name : string;
  p_welcome_message : string
}.

(** [self.presets], in the order of the file. *)
Abbreviation Presets := (list (string * Preset)).

(** [self.presets[key]] *)
Fixpoint presets_get (presets : Presets) (key : string) : option Preset :=
  match presets with
  | [] => None
  | (k, p) :: rest => if String.eqb k key then Some p else presets_get rest key
  end.

(** A button of the menu: a preset with its [callback_data], or a page
    turner, whose [callback_data] is [f"assistant_page_{page}"]. *)
Inductive button : Type :=
  | PresetButton (name : string) (callback_data : string)
  | PageButton (label : string) (page : Z).

(** [presets[preset]["name"]] for a key taken from the dictionary. *)
Definition preset_name (presets : Presets) (preset : string) : string :=
  match presets_get presets preset with
  | Some p => p_name p
  | None => ""
  end.

(** The computation of [assistant]: the page shown, the number of pages
    and the keyboard.  [page] is [None] for the command and the number in
    the callback data otherwise; [page or 1] takes [0] for absent. *)
Definition assistant_menu (presets : Presets) (user : User) (page : option Z)
    : Z * Z * list (list button) :=
  let presets_keys := map fst presets in
  let presets_keys := if String.eqb (rate_type user) "base"
                      then py_slice presets_keys None (Some 5)
                      else presets_keys in
  let page_size := 5 in
  let total_pages := (Z.of_nat (length presets_keys) + page_size - 1) / page_size in
  let current_page := match page with
                      | None => 1
                      | Some p => if p =? 0 then 1 else p
                      end in
  let start_index := (current_page - 1) * page_size in
  let end_index := Z.min (start_index + page_size) (Z.of_nat (length presets_keys)) in
  let keyboard :=
    map (fun preset =>
           [PresetButton (preset_name presets preset) ("change_mode_" ++ preset)%string])
      (py_slice presets_keys (Some start_index) (Some end_index)) in
  let navigation_buttons :=
    (if 1 <? current_page then [PageButton "<<" (current_page - 1)] else [])
    ++ (if current_page <? total_pages then [PageButton ">>" (current_page + 1)]
        else []) in
  (current_page, total_pages,
   if 1 <? total_pages then keyboard ++ [navigation_buttons] else keyboard).

(** [assistant]: the row of the chat is read first. *)
Definition assistant (presets : Presets) (db : DB) (effective_chat : Z)
    (page : option Z) : result (Z * Z * list (list button)) :=
  match get_user db effective_chat with
  | None => Raised AttributeError
  | Some user => Done (assistant_menu presets user page)
  end.

(** What the [change_model_] callback answers with. *)
Inductive model_reply : Type :=
  | NoReply                        (* the model is the current one *)
  | NeedsGpt4Tier                  (* only on the GPT-4 tier *)
  | KeyboardFor (model : string).  (* model_keyboard(model) *)

(** The [change_model_] branch of [handle_callback_inline_query]; [model]
    is what follows the prefix in the callback data. *)
Definition change_model (db : DB) (effective_chat : Z) (model : string)
    : result (DB * model_reply) :=
  match get_user db effective_chat with
  | None => Raised AttributeError
  | Some user =>
      if String.eqb (default_model user) model then Done (db, NoReply)
      else if negb (String.eqb (rate_type user) "gpt-4") then Done (db, NeedsGpt4Tier)
      else Done (update_user_field db effective_chat Col_default_model model,
                 KeyboardFor model)
  end.

(** The [change_mode_] branch: the preset is looked up before the write,
    and its welcome message is what is sent. *)
Definition change_mode (presets : Presets) (db : DB) (effective_chat : Z)
    (mode : string) : result (DB * string) :=
  match presets_get presets mode with
  | None => Raised KeyError
  | Some preset =>
      Done (update_user_field db effective_chat Col_default_preset mode,
            p_welcome_message preset)
  end.

(** ** Polling a prediction ([src/bot/replicate.py]) *)

(** An answer of the prediction endpoint, as far as [run] reads it. *)
Record Prediction : Type := mkPrediction {
  status : string;
  output : list string
}.

(** How [run] stands after the answers received so far: it has returned
    the output, it has raised with the answer, or it is still in its loop.
    [slept] counts the calls of [time.sleep(5)]. *)
Inductive run_state : Type :=
  | RunReturned (out : list string) (slept : nat)
  | RunRaised (answer : Prediction) (slept : nat)
  | RunPolling (slept : nat).

(** ["processing"] or ["starting"] *)
Definition in_progress (r : Prediction) : bool :=
  String.eqb (status r) "processing" || String.eqb (status r) "starting".

(** The [while working] loop over the answers of successive [get] calls. *)
Fixpoint poll (answers : list Prediction) (slept : nat) : run_state :=
  match answers with
  | [] => RunPolling slept
  | response :: rest =>
      if String.eqb (status response) "succeeded" then
        RunReturned (output response) slept
      else if in_progress response then poll rest (S slept)
      else RunRaised response slept
  end.

(** [Replicate.run]: the [get] URL of the posted prediction is read first
    ([None]: the answer to the post has none), then the loop polls. *)
Definition run (posted : option string) (answers : list Prediction)
    : result run_state :=
  match posted with
  | None => Raised KeyError
  | Some _ => Done (poll answers 0)
  end.

(** ** Broadcasts: [mail] *)

(** [DB.get_all_users]: the rows.  The query has no [ORDER BY], so their
    order is the database's; the model lists them by key, and the
    properties of [mail] hold for the list in whatever order. *)
Definition get_all_users (db : DB) : list User := map snd (map_to_list db).

(** [DB.get_users_by_free_or_payed]: [filter_by(is_free=is_free)] *)
Definition get_users_by_free_or_payed (db : DB) (free : bool) : list User :=
  List.filter (fun user => Bool.eqb (is_free user) free) (get_all_users db).

(** What the command message carries besides its text: the branches of
    the [if ... elif] chain, in its order. *)
Inductive attachment : Type :=
  | Document | Animation | Video | Photo | Audio | TextOnly.

(** What [mail] does, in order; every entry is a Telegram call with the
    way it ended. *)
Inductive mail_event : Type :=
  | MailRefused (o : outcome)                 (* the sender is no admin *)
  | MailUsage (o : outcome)                   (* fewer than three words *)
  | MailBadGroup (group : string) (o : outcome)
  | MailSent (chat : Z) (kind : attachment) (message : string) (o : outcome)
  | MailFailureReported (chat : Z) (o : outcome)
  | MailDone (o : outcome).                   (* "messages sent" *)

(** The outcome of the next Telegram call; calls beyond the list succeed. *)
Definition next_outcome (pending : list outcome) : outcome * list outcome :=
  match pending with
  | [] => (Ok, [])
  | o :: rest => (o, rest)
  end.

(** The [for user in users] loop: a delivery that fails is reported to the
    admin inside the [except] and the loop goes on; when the report itself
    fails the exception leaves the handler ([None]). *)
Fixpoint mail_loop (users : list User) (kind : attachment) (message : string)
    (pending : list outcome) : list mail_event * option (list outcome) :=
  match users with
  | [] => ([], Some pending)
  | user :: rest =>
      let '(o, pending1) := next_outcome pending in
      match o with
      | Ok =>
          let '(events, remaining) := mail_loop rest kind message pending1 in
          (MailSent (chat_id user) kind message Ok :: events, remaining)
      | _ =>
          let '(o2, pending2) := next_outcome pending1 in
          match o2 with
          | Ok =>
              let '(events, remaining) := mail_loop rest kind message pending2 in
              (MailSent (chat_id user) kind message o
               :: MailFailureReported (chat_id user) Ok :: events, remaining)
          | _ =>
              ([MailSent (chat_id user) kind message o;
                MailFailureReported (chat_id user) o2], None)
          end
      end
  end.

(** The users of a group, or [None] for a group that is not one of the
    three. *)
Definition mail_recipients (db : DB) (group : string) : option (list User) :=
  if String.eqb group "all" then Some (get_all_users db)
  else if String.eqb group "free" then Some (get_users_by_free_or_payed db true)
  else if String.eqb group "payed" then Some (get_users_by_free_or_payed db false)
  else None.

(** [mail]: [args] are the words of the caption or of the text. *)
Definition mail (db : DB) (is_admin : bool) (args : list string)
    (kind : attachment) (pending : list outcome) : list mail_event :=
  if negb is_admin then [MailRefused (next_outcome pending).1]
  else if (length args <? 3)%nat then [MailUsage (next_outcome pending).1]
  else
    let group := nth 1 args "" in
    let message := String.concat " " (skipn 2 args) in
    match mail_recipients db group with
    | None => [MailBadGroup group (next_outcome pending).1]
    | Some users =>
        match mail_loop users kind message pending with
        | (events, Some remaining) => events ++ [MailDone (next_outcome remaining).1]
        | (events, None) => events
        end
    end.

(** ** Voice messages: [transcribe] *)

(** The texts of the replies, which come from the localisation and from
    formatting the transcript and the answer. *)
Record transcribe_texts : Type := mkTranscribeTexts {
  media_download_fail : string;
  media_type_fail : string;
  transcribe_fail : string;
  transcript_only : string -> string;
  transcript_and_answer : string -> string -> string
}.

(** What the collaborators do with a voice message. *)
Record Voice : Type := mkVoice {
  downloaded : bool;                   (* get_file and download_to_drive *)
  converted : bool;                    (* AudioSegment.from_file and export *)
  transcript : option string;          (* openai.transcribe, [None]: raised *)
  echo_only : bool;                    (* voice_reply_transcript and no reply prefix *)
  chat_response : option (string * Z)  (* get_chat_response, [None]: raised *)
}.

(** The [for index, transcript_chunk in enumerate(chunks)] loops of
    [transcribe]: Markdown only, and the first failure is raised. *)
Fixpoint send_all (w : world) (first : bool) (chunks : list string)
    : bool * world :=
  match chunks with
  | [] => (true, w)
  | chunk :: rest =>
      let '(o, w1) := transport w (reply_text chunk first true) in
      match o with
      | Ok => send_all w1 false rest
      | _ => (false, w1)
      end
  end.

(** A reply outside any [try]: its failure leaves the handler. *)
Definition reply_or_raise (db : DB) (w : world) (c : call) : DB * world :=
  let '(o, w1) := transport w c in
  match o with
  | Ok => (db, w1)
  | _ => (db, record w1 (Uncaught TransportError))
  end.

(** The [except Exception as e] of [_execute]. *)
Definition transcribe_failed (T : transcribe_texts) (db : DB) (w : world)
    : DB * world :=
  reply_or_raise db (record w Logged) (reply_text (transcribe_fail T) true true).

(** [_execute] of [transcribe]. *)
Definition transcribe_execute (U : utils) (T : transcribe_texts) (db : DB)
    (w : world) (upd : Update) (user : User) (v : Voice) : DB * world :=
  if negb (downloaded v) then
    reply_or_raise db w (reply_text (media_download_fail T) true true)
  else if negb (converted v) then
    reply_or_raise db w (reply_text (media_type_fail T) true false)
  else
    match transcript v with
    | None => transcribe_failed T db w
    | Some text =>
        let db1 := debit_row db user (from_user_id upd) whisper_kind 1 in
        if echo_only v then
          let '(sent, w1) :=
            send_all w true (split_into_chunks U (transcript_only T text)) in
          if sent then (db1, w1) else transcribe_failed T db1 w1
        else
          match chat_response v with
          | None => transcribe_failed T db1 w
          | Some (response, total_tokens) =>
              let db2 := debit_row db1 user (from_user_id upd) (chat_kind user)
                           total_tokens in
              let '(sent, w1) :=
                send_all w true
                  (split_into_chunks U (transcript_and_answer T text response)) in
              if sent then (db2, w1) else transcribe_failed T db2 w1
          end
    end.

(** [transcribe], for a message whose caption is not a [/mail] command:
    [admitted] stands for the configuration switch and the budget check,
    [ignored_group] for a group chat whose transcriptions are ignored.  The
    test in the [else] branch is the one of the [if] it belongs to. *)
Definition transcribe (U : utils) (T : transcribe_texts) (today : Z) (db : DB)
    (w : world) (upd : Update) (admitted ignored_group : bool) (v : Voice)
    : DB * world :=
  if negb admitted then (db, w)
  else
    match check_rate_limit db today (effective_chat_id upd) (Some whisper_kind) with
    | Raised e => (db, record w (Uncaught e))
    | Done (user, okay, rejected) =>
        let '(o, w1) := send_rejection w rejected in
        match o with
        | Ok =>
            if negb okay then (db, w1)
            else
              let proceed (user : User) (w2 : world) :=
                if ignored_group then (db, w2)
                else wrap_with_indicator
                       (fun w3 => transcribe_execute U T db w3 upd user v) w2 in
              let check_again (k : rate_kind) :=
                match check_rate_limit db today (effective_chat_id upd) (Some k) with
                | Raised e => (db, record w1 (Uncaught e))
                | Done (user, okay, rejected) =>
                    let '(o, w2) := send_rejection w1 rejected in
                    match o with
                    | Ok => if negb okay then (db, w2) else proceed user w2
                    | _ => (db, record w2 (Uncaught TransportError))
                    end
                end in
              if String.eqb (rate_type user) "gpt-4" then check_again gpt4_kind
              else
                if String.eqb (rate_type user) "gpt-4" then check_again gpt35_kind
                else proceed user w1
        | _ => (db, record w1 (Uncaught TransportError))
        end
    end.

(** ** Vocabulary of the properties *)



(** The row after a renewal: identity and preferences of [u], the
    balances of the tier, and the given expiry, tier name, trial flag and
    payment reference. *)
Definition renewed (u : User) (key : string) (rate : Rate) (expiry : Z)
    (free : bool) (reference : option string) : User :=
  mkUser (chat_id u) (username u) (r_gpt4_rate rate) (r_gpt35_rate rate)
    (r_dalle_rate rate) (r_whisper_rate rate) (r_tts_rate rate) expiry key
    free reference (default_model u) (default_preset u).

(** No tier of the table has the price [summ]. *)
Definition no_tier_costs (rates : Rates) (summ : Z) : Prop :=
  forall key r, In (key, r) rates -> r_price r <> summ.

(** An account of the [pro] tier with no image left. *)
Definition used_up_user : User :=
  mkUser 7 (Some "alice") 0 1200 0 60 20000 75 "pro" false (Some "42")
    "gpt35" "assistant".

(** The account that paid invoice 42 for the [pro] tier and has used part
    of its allotment. *)
Definition paid_user : User :=
  mkUser 7 (Some "alice") 0 1200 3 60 20000 75 "pro" false (Some "42")
    "gpt35" "assistant".

(** Once the first send has gone through there is a live message: the
    loop never reaches [i > 0] without one. *)
Definition has_live_message (s : loop_state) : Prop :=
  i s <> 0%nat -> sent_message s <> None.

(** The rule of C7 as it is worded: the new partial is compared with the
    content rendered before it. *)
Definition spec_edit_rule (cutoff : Z) (rendered new : string) (tok : tokens)
    : Prop :=
  cutoff < Z.abs (len new - len rendered) \/ tok <> not_finished.

(** How often an edit with the text [content] was submitted. *)
Fixpoint edit_attempts (content : string) (l : list event) : nat :=
  match l with
  | [] => 0
  | Called (edit_message_with_retry _ text _) _ :: rest =>
      ((if String.eqb text content then 1 else 0) + edit_attempts content rest)%nat
  | _ :: rest => edit_attempts content rest
  end.



(** How many [reply_text] calls were made, whatever their outcome. *)
Fixpoint sends (l : list event) : nat :=
  match l with
  | [] => 0
  | Called (reply_text _ _ _) _ :: rest => S (sends rest)
  | _ :: rest => sends rest
  end.

(** A stream item that is an ordinary text within the length cap. *)
Definition plain_partial (U : utils) (item : string * tokens) : Prop :=
  is_direct_result U (fst item) = false /\
  (length (split_into_chunks U (fst item)) <= 1)%nat.

(** What follows a failed edit in the log: the sleep of its handler. *)
Definition sleep_after (o : outcome) : list event :=
  match o with
  | RetryAfter t => [Slept (Seconds t)]
  | TimedOut => [Slept HalfSecond]
  | _ => []
  end.

(** The preset buttons of a keyboard, row after row. *)
Definition preset_buttons (keyboard : list (list button)) : list button :=
  List.filter
    (fun b => match b with PresetButton _ _ => true | PageButton _ _ => false end)
    (concat keyboard).

(** The chats [mail] tried to deliver to, in order. *)
Fixpoint attempted (events : list mail_event) : list Z :=
  match events with
  | [] => []
  | MailSent chat _ _ _ :: rest => chat :: attempted rest
  | _ :: rest => attempted rest
  end.

(** Every report of a failed delivery went through. *)
Definition reports_delivered (events : list mail_event) : Prop :=
  forall chat o, In (MailFailureReported chat o) events -> o = Ok.

(** * Properties *)

(** ** Account store *)

Lemma update_user_field_present (db : DB) (cid : Z) (c : column)
    (v : column_type c) (user : User) :
  db !! cid = Some user ->
  update_user_field db cid c v !! cid = Some (setattr user c v).
Proof.
  intros Hrow. unfold update_user_field. rewrite Hrow.
  apply lookup_insert_eq.
Qed.

Lemma update_user_field_other (db : DB) (cid cid' : Z) (c : column)
    (v : column_type c) :
  cid <> cid' ->
  update_user_field db cid c v !! cid' = db !! cid'.
Proof.
  intros Hne. unfold update_user_field.
  destruct (db !! cid); [ by rewrite lookup_insert_ne | done ].
Qed.

Lemma update_user_field_missing (db : DB) (cid : Z) (c : column)
    (v : column_type c) :
  db !! cid = None -> update_user_field db cid c v = db.
Proof.
  intros Hmissing. unfold update_user_field. by rewrite Hmissing.
Qed.

(** C10: [update_user_field] for a [chat_id] that has no row returns the
    table it was given: nothing is written, no row is created, and, the
    function being total, nothing is raised; so every stored row reads as
    before. *)
Theorem update_user_field_unknown_chat (db : DB) (cid : Z) (c : column)
    (v : column_type c) :
  db !! cid = None ->
  update_user_field db cid c v = db /\
  update_user_field db cid c v !! cid = None /\
  forall cid', update_user_field db cid c v !! cid' = db !! cid'.
Proof.
  intros Hmissing.
  rewrite (update_user_field_missing db cid c v Hmissing). auto.
Qed.

Lemma update_user_field_unknown_chat_witness :
  let db : DB := {[ 7 := sample_user 7 ]} in
  update_user_field db 8 Col_gpt35_rate 100 = db /\
  update_user_field db 8 Col_gpt35_rate 100 !! 8 = None /\
  forall cid', update_user_field db 8 Col_gpt35_rate 100 !! cid' = db !! cid'.
Proof.
  apply (update_user_field_unknown_chat {[ 7 := sample_user 7 ]} 8 Col_gpt35_rate 100).
  reflexivity.
Defined.

(** ** Quota policy *)

(** C2: an account whose [rate_end_date] is before today is turned away by
    the first test of [check_rate_limit], whatever column is asked for
    (also none) and whatever the balances are: [okay] is [False] and the
    reply is the one for an ended subscription. *)
Theorem expired_account_is_rejected (db : DB) (today cid : Z) (user : User)
    (rate_type : option rate_kind) :
  get_user db cid = Some user ->
  rate_end_date user < today ->
  exists r,
    check_rate_limit db today cid rate_type = Done (user, false, Some r) /\
    reason_of r = EXPIRED.
Proof.
  intros Hrow Hpast. exists SubscriptionEnded.
  unfold check_rate_limit. rewrite Hrow.
  apply Z.ltb_lt in Hpast. rewrite Hpast. split; reflexivity.
Qed.

Lemma expired_account_is_rejected_witness :
  exists r,
    check_rate_limit {[ 7 := sample_user 7 ]} 101 7 (Some dalle_kind)
      = Done (sample_user 7, false, Some r) /\
    reason_of r = EXPIRED.
Proof.
  apply (expired_account_is_rejected {[ 7 := sample_user 7 ]} 101 7
           (sample_user 7) (Some dalle_kind)).
  - reflexivity.
  - simpl. lia.
Defined.

(** C5: a live account whose balance on the column asked for is not
    positive is turned away, and the reply says that the allotment has run
    out.  A negative balance reaches the third test and gets the wording of
    its column; a balance of exactly [0] is falsy and caught by the second
    test, whose reply says that the tokens have run out. *)
Theorem nonpositive_balance_is_rejected (db : DB) (today cid : Z)
    (user : User) (k : rate_kind) :
  get_user db cid = Some user ->
  today <= rate_end_date user ->
  balance user k <= 0 ->
  exists r,
    check_rate_limit db today cid (Some k) = Done (user, false, Some r) /\
    reason_of r = EXHAUSTED /\
    (balance user k < 0 -> r = BalanceUsedUp (exhausted_text_of k)) /\
    (balance user k = 0 -> r = NothingLeft).
Proof.
  intros Hrow Hlive Hempty.
  unfold check_rate_limit. rewrite Hrow.
  assert (Hnot_past : (rate_end_date user <? today) = false)
    by (apply Z.ltb_ge; lia).
  rewrite Hnot_past. unfold balance_is_falsy.
  destruct (Z.eqb_spec (balance user k) 0) as [Hzero | Hnonzero].
  - exists NothingLeft. split; [ reflexivity | ]. split; [ reflexivity | ].
    split; [ lia | reflexivity ].
  - assert (Hle : (balance user k <=? 0) = true) by (apply Z.leb_le; lia).
    rewrite Hle. exists (BalanceUsedUp (exhausted_text_of k)).
    split; [ reflexivity | ]. split; [ reflexivity | ].
    split; [ reflexivity | contradiction ].
Qed.

Lemma nonpositive_balance_is_rejected_witness :
  exists r,
    check_rate_limit {[ 7 := used_up_user ]} 50 7 (Some dalle_kind)
      = Done (used_up_user, false, Some r) /\
    reason_of r = EXHAUSTED /\
    (balance used_up_user dalle_kind < 0 ->
       r = BalanceUsedUp (exhausted_text_of dalle_kind)) /\
    (balance used_up_user dalle_kind = 0 -> r = NothingLeft).
Proof.
  apply (nonpositive_balance_is_rejected {[ 7 := used_up_user ]} 50 7
           used_up_user dalle_kind).
  - reflexivity.
  - simpl. lia.
  - simpl. lia.
Defined.

(** The reply at a balance of exactly [0] is the one of the second test
    whatever the column: an account that has used its last image is told
    that its tokens have run out. *)
Example zero_balance_reply_speaks_of_tokens :
  check_rate_limit {[ 7 := used_up_user ]} 50 7 (Some dalle_kind)
  = Done (used_up_user, false, Some NothingLeft) /\
  check_rate_limit {[ 7 := setattr used_up_user Col_dalle_rate (-1) ]} 50 7
    (Some dalle_kind)
  = Done (setattr used_up_user Col_dalle_rate (-1), false,
          Some (BalanceUsedUp ImagesOver)).
Proof. split; reflexivity. Qed.

(** A positive balance on a live account is let through. *)
Lemma positive_balance_is_allowed (db : DB) (today cid : Z) (user : User)
    (k : rate_kind) :
  get_user db cid = Some user ->
  today <= rate_end_date user ->
  0 < balance user k ->
  check_rate_limit db today cid (Some k) = Done (user, true, None).
Proof.
  intros Hrow Hlive Hpos.
  unfold check_rate_limit. rewrite Hrow.
  assert (Hnot_past : (rate_end_date user <? today) = false)
    by (apply Z.ltb_ge; lia).
  rewrite Hnot_past. simpl.
  destruct (Z.eqb_spec (balance user k) 0); [ lia | ].
  destruct (Z.leb_spec (balance user k) 0); [ lia | reflexivity ].
Qed.

(** ** Debit *)


Lemma debit_row_other (db : DB) (user : User) (cid cid' : Z) (k : rate_kind)
    (amount : Z) :
  cid <> cid' ->
  debit_row db user cid k amount !! cid' = db !! cid'.
Proof.
  intros Hne. destruct k; simpl; by apply update_user_field_other.
Qed.







(** The scenario of the specification: five tokens, a request of three and
    one of six leave [-4]; the next request is turned away as exhausted. *)
Example ledger_goes_negative :
  exists db',
    debits {[ 7 := sample_user 7 ]} 7 7 gpt35_kind [3; 6] = Done db' /\
    check_rate_limit db' 100 7 (Some gpt35_kind)
      = Done (setattr (sample_user 7) Col_gpt35_rate (-4), false,
              Some (BalanceUsedUp TokensOver)).
Proof.
  eexists. split; reflexivity.
Qed.

(** In a group chat the row read is the group's and the row written is
    the sender's: the group's balance is not reduced. *)
Example group_chat_debit_misses_the_chat :
  let db : DB := {[ (-100) := sample_user (-100) ]} in
  debit db (-100) 7 gpt35_kind 3 = Done db.
Proof. reflexivity. Qed.

(** ** Renewal and payments *)

(** One more write on a row that is there. *)
Ltac write_on H c v :=
  let H' := fresh "Hrow" in
  pose proof (update_user_field_present _ _ c v _ H) as H';
  clear H; rename H' into H.

Lemma int_of_str_of_int (n : Z) : int_of_str (str_of_int n) = Some n.
Proof.
  unfold int_of_str, str_of_int.
  rewrite NilZero.isi.
  - simpl. by rewrite DecimalZ.of_to.
  - destruct n; simpl; try discriminate.
    intros [= Hnil]. by apply (Unsigned.to_uint_nonnil p).
  - destruct n; simpl; try discriminate.
    intros [= Hnil]. by apply (Unsigned.to_uint_nonnil p).
Qed.

Lemma payment_writes_present (db : DB) (today user_id payment_id : Z)
    (key : string) (rate : Rate) (u : User) :
  db !! user_id = Some u ->
  payment_writes db today user_id payment_id key rate !! user_id
    = Some (renewed u key rate (today + 30) false (Some (str_of_int payment_id))).
Proof.
  intros Hrow. unfold payment_writes.
  write_on Hrow Col_gpt4_rate (r_gpt4_rate rate).
  write_on Hrow Col_gpt35_rate (r_gpt35_rate rate).
  write_on Hrow Col_dalle_rate (r_dalle_rate rate).
  write_on Hrow Col_whisper_rate (r_whisper_rate rate).
  write_on Hrow Col_tts_rate (r_tts_rate rate).
  write_on Hrow Col_rate_end_date (today + 30).
  write_on Hrow Col_rate_type key.
  write_on Hrow Col_is_free false.
  write_on Hrow Col_last_pay_id (Some (str_of_int payment_id)).
  exact Hrow.
Qed.


Lemma apply_confirmed_store (rates : Rates) (today : Z) (db : DB) (w : world)
    (user_id payment_id summ : Z) :
  (apply_confirmed rates today db w user_id payment_id summ).1
  = match find_rate rates summ with
    | Some (key, rate) => payment_writes db today user_id payment_id key rate
    | None => db
    end.
Proof.
  unfold apply_confirmed.
  destruct (find_rate rates summ) as [[key rate] |]; [ | reflexivity ].
  destruct (transport w _) as [o1 w1].
  destruct o1; try reflexivity.
  destruct (transport w1 _) as [o2 w2].
  destruct o2; reflexivity.
Qed.

Lemma find_rate_none (rates : Rates) (summ : Z) :
  no_tier_costs rates summ -> find_rate rates summ = None.
Proof.
  induction rates as [| [key r] rest IH]; intros Hnone; [ reflexivity | ].
  simpl. destruct (Z.eqb_spec (r_price r) summ) as [Hprice | _].
  - exfalso. apply (Hnone key r); [ left; reflexivity | exact Hprice ].
  - apply IH. intros key' r' Hin. apply (Hnone key' r'). by right.
Qed.

Lemma find_rate_some (rates : Rates) (summ : Z) (key : string) (rate : Rate) :
  find_rate rates summ = Some (key, rate) ->
  In (key, rate) rates /\ r_price rate = summ.
Proof.
  induction rates as [| [k r] rest IH]; simpl; [ discriminate | ].
  destruct (Z.eqb_spec (r_price r) summ) as [Hprice | _].
  - intros [= <- <-]. split; [ by left | exact Hprice ].
  - intros Hfound. destruct (IH Hfound). split; [ by right | done ].
Qed.

Lemma check_pay_unmatched_store (rates : Rates) (today : Z) (db : DB)
    (w : world) (user_id payment_id : Z) (code : string) (summ : Z) :
  find_rate rates summ = None ->
  (check_pay rates today db w user_id payment_id (State code summ)).1 = db.
Proof.
  intros Hnone.
  assert (Hstore : forall w',
            (apply_confirmed rates today db w' user_id payment_id summ).1 = db).
  { intros w'. rewrite apply_confirmed_store. by rewrite Hnone. }
  unfold check_pay. destruct (String.eqb code "100"); [ | reflexivity ].
  destruct (is_last_payment db user_id payment_id) as [[|] |]; auto.
  destruct (transport w _) as [o w1]. destruct o; auto.
Qed.

(** C4: when the amount paid is the price of no tier, [check_pay] returns
    the table it was given, whatever the gateway's code and whatever the
    Telegram calls do; after a confirmation (code [100]) the last thing
    done is printing the amount, unless the payment is the one already
    recorded and the "already paid" message went out, which ends the
    handler. *)
Theorem unmatched_amount_changes_nothing (rates : Rates) (today : Z) (db : DB)
    (w : world) (user_id payment_id : Z) (code : string) (summ : Z) :
  no_tier_costs rates summ ->
  (check_pay rates today db w user_id payment_id (State code summ)).1 = db /\
  ((exists before,
      log (check_pay rates today db w user_id payment_id (State "100" summ)).2
        = before ++ [PrintedSum summ]) \/
   (is_last_payment db user_id payment_id = Some true /\
    log (check_pay rates today db w user_id payment_id (State "100" summ)).2
      = log w ++ [Called (send_notice AlreadyPaid) Ok])).
Proof.
  intros Hnone. apply find_rate_none in Hnone.
  assert (Hlog : forall w', log (apply_confirmed rates today db w' user_id payment_id summ).2
                            = log w' ++ [PrintedSum summ]).
  { intros w'. unfold apply_confirmed. by rewrite Hnone. }
  split.
  - by apply check_pay_unmatched_store.
  - unfold check_pay. simpl String.eqb. cbv iota.
    destruct (is_last_payment db user_id payment_id) as [[|] |].
    + unfold transport. destruct (pending w) as [| o rest].
      * right. split; reflexivity.
      * destruct o; try (left; eexists; apply Hlog).
        right. split; reflexivity.
    + left. eexists. apply Hlog.
    + left. eexists. apply Hlog.
Qed.

Lemma unmatched_amount_changes_nothing_witness :
  let db : DB := {[ 7 := sample_user 7 ]} in
  (check_pay sample_rates 50 db (fresh_world []) 7 42 (State "100" 999)).1 = db /\
  ((exists before,
      log (check_pay sample_rates 50 db (fresh_world []) 7 42 (State "100" 999)).2
        = before ++ [PrintedSum 999]) \/
   (is_last_payment db 7 42 = Some true /\
    log (check_pay sample_rates 50 db (fresh_world []) 7 42 (State "100" 999)).2
      = log (fresh_world []) ++ [Called (send_notice AlreadyPaid) Ok])).
Proof.
  apply (unmatched_amount_changes_nothing sample_rates 50 {[ 7 := sample_user 7 ]}
           (fresh_world []) 7 42 "100" 999).
  intros key r Hin. simpl in Hin.
  repeat (destruct Hin as [[= <- <-] | Hin]; [ simpl; lia | ]).
  destruct Hin.
Defined.




(** A chat id that the [Integer] primary key cannot hold gets the two
    messages of [start] and no row: the insert is refused. *)
Example start_refuses_wide_chat_id :
  start sample_rates 50 ∅ (fresh_world []) 2147483648 None
  = (∅, mkWorld [] 0
          [Called (send_notice Welcome) Ok; Called (send_notice NewUser) Ok;
           Uncaught DataError]).
Proof. reflexivity. Qed.



(** ** Duplicate confirmations *)

(** After the writes of a confirmed payment the row carries the payment's
    id as its reference. *)
Lemma payment_is_recorded (db : DB) (today user_id payment_id : Z)
    (key : string) (rate : Rate) (u : User) :
  db !! user_id = Some u ->
  is_last_payment (payment_writes db today user_id payment_id key rate)
    user_id payment_id = Some true.
Proof.
  intros Hrow. unfold is_last_payment, get_user.
  rewrite (payment_writes_present _ _ _ _ _ _ _ Hrow). simpl.
  rewrite int_of_str_of_int. by rewrite Z.eqb_refl.
Qed.

(** A confirmation of the payment already recorded writes nothing, provided
    the "already paid" message goes out. *)
Lemma duplicate_is_noop_when_told (rates : Rates) (today : Z) (db : DB)
    (w : world) (user_id payment_id summ : Z) :
  is_last_payment db user_id payment_id = Some true ->
  hd Ok (pending w) = Ok ->
  (check_pay rates today db w user_id payment_id (State "100" summ)).1 = db.
Proof.
  intros Hsame Htold. unfold check_pay. simpl String.eqb. cbv iota.
  rewrite Hsame. unfold transport.
  destruct (pending w) as [| o rest]; [ reflexivity | ].
  simpl in Htold. subst o. reflexivity.
Qed.

Lemma payment_writes_missing (db : DB) (today user_id payment_id : Z)
    (key : string) (rate : Rate) :
  db !! user_id = None ->
  payment_writes db today user_id payment_id key rate = db.
Proof.
  intros Hmissing. unfold payment_writes. cbv zeta.
  repeat (rewrite (update_user_field_missing db user_id) by exact Hmissing).
  reflexivity.
Qed.

(** What a confirmation does to the table: nothing, or the nine writes. *)
Lemma check_pay_confirmed_cases (rates : Rates) (today : Z) (db : DB)
    (w : world) (user_id payment_id summ : Z) :
  ((check_pay rates today db w user_id payment_id (State "100" summ)).1 = db /\
   (is_last_payment db user_id payment_id = Some true \/
    find_rate rates summ = None)) \/
  exists key rate,
    find_rate rates summ = Some (key, rate) /\
    (check_pay rates today db w user_id payment_id (State "100" summ)).1
    = payment_writes db today user_id payment_id key rate.
Proof.
  destruct (find_rate rates summ) as [[key rate] |] eqn:Hfound.
  - assert (Hstore : forall w',
              (apply_confirmed rates today db w' user_id payment_id summ).1
              = payment_writes db today user_id payment_id key rate).
    { intros w'. rewrite apply_confirmed_store. by rewrite Hfound. }
    unfold check_pay. simpl String.eqb. cbv iota.
    destruct (is_last_payment db user_id payment_id) as [[|] |];
      try (right; exists key, rate; split; [ reflexivity | apply Hstore ]).
    destruct (transport w _) as [o w1].
    destruct o;
      try (right; exists key, rate; split; [ reflexivity | apply Hstore ]).
    left. split; [ reflexivity | by left ].
  - left. split; [ by apply check_pay_unmatched_store | by right ].
Qed.

(** With the "already paid" message delivered, confirming a payment a
    second time, at any later day, changes nothing: the first confirmation
    either recorded the payment or had nothing to write. *)
Lemma second_confirmation_is_noop_when_told (rates : Rates) (today today' : Z)
    (db : DB) (w w' : world) (user_id payment_id summ : Z) :
  hd Ok (pending w') = Ok ->
  let db1 := (check_pay rates today db w user_id payment_id (State "100" summ)).1 in
  (check_pay rates today' db1 w' user_id payment_id (State "100" summ)).1 = db1.
Proof.
  intros Htold db1.
  destruct (check_pay_confirmed_cases rates today db w user_id payment_id summ)
    as [[Hsame [Hdup | Hnone]] | (key & rate & Hfound & Hwritten)];
    subst db1.
  - rewrite Hsame. by apply duplicate_is_noop_when_told.
  - by apply check_pay_unmatched_store.
  - rewrite Hwritten. destruct (db !! user_id) as [u |] eqn:Hrow.
    + apply duplicate_is_noop_when_told; [ | exact Htold ].
      by apply (payment_is_recorded db today user_id payment_id key rate u).
    + rewrite (payment_writes_missing db today user_id payment_id key rate Hrow).
      unfold check_pay, is_last_payment, get_user. simpl String.eqb. cbv iota.
      rewrite Hrow. rewrite apply_confirmed_store, Hfound.
      by apply payment_writes_missing.
Qed.

(** C1, at the input where the code leaves it: the confirmation of the
    recorded payment 42 arrives again and the "already paid" message times
    out.  The exception is swallowed by the [except] meant for the
    comparison, the handler goes on, and the account is credited a second
    time: balances back to the tier's values and expiry moved from day 75
    to day 80.  With the message delivered the same confirmation changes
    nothing. *)
Theorem duplicate_confirmation_recredits_after_failed_notice :
  let db : DB := {[ 7 := paid_user ]} in
  is_last_payment db 7 42 = Some true /\
  (check_pay sample_rates 50 db (fresh_world []) 7 42 (State "100" 590)).1 = db /\
  (check_pay sample_rates 50 db (fresh_world [TimedOut]) 7 42 (State "100" 590)).1 !! 7
    = Some (mkUser 7 (Some "alice") 0 100000 50 60 20000 80 "pro" false
              (Some "42") "gpt35" "assistant") /\
  (check_pay sample_rates 50 db (fresh_world [TimedOut]) 7 42 (State "100" 590)).1
    <> db.
Proof.
  repeat split; try reflexivity.
  intros Hsame. apply (f_equal (fun m : DB => gpt35_rate <$> m !! 7)) in Hsame.
  vm_compute in Hsame. discriminate Hsame.
Qed.

(** ** Failed generations *)

Lemma chat_fail_store (db : DB) (w : world) : (chat_fail db w).1 = db.
Proof.
  unfold chat_fail. destruct (transport _ _) as [o w1]. by destruct o.
Qed.

Lemma tts_fail_store (db : DB) (w : world) : (tts_fail db w).1 = db.
Proof.
  unfold tts_fail. destruct (transport _ _) as [o w1]. by destruct o.
Qed.

(** Whatever the request, [prompt] leaves the table alone when the
    generation raises. *)
Lemma answer_failed_store (U : utils) (db : DB) (w : world) (upd : Update)
    (user : User) (items : list (string * tokens)) :
  (answer U db w upd user (Streamed items true)).1 = db /\
  (answer U db w upd user (Answered None)).1 = db.
Proof.
  split.
  - unfold answer. destruct (transport w reply_chat_action) as [o w1].
    destruct o; try apply chat_fail_store.
    destruct (stream_loop U initial_loop w1 items) as [s w2 | w2 | w2];
      [ apply chat_fail_store | reflexivity | apply chat_fail_store ].
  - unfold answer, wrap_with_indicator. apply chat_fail_store.
Qed.

(** C9: when the generation raises, in the stream after any number of
    items or in the single call, [prompt] returns the table it was given,
    and so does [tts] when [generate_speech] raises: the debit comes after
    the external call and is not reached. *)
Theorem failed_generation_costs_nothing (U : utils) (today : Z) (db : DB)
    (w : world) (upd : Update) (items : list (string * tokens))
    (allowed query_empty : bool) :
  (prompt U today db w upd (Streamed items true)).1 = db /\
  (prompt U today db w upd (Answered None)).1 = db /\
  (tts today db w upd allowed query_empty None).1 = db.
Proof.
  assert (Hprompt : forall gen,
            (forall w' user, (answer U db w' upd user gen).1 = db) ->
            (prompt U today db w upd gen).1 = db).
  { intros gen Hanswer. unfold prompt.
    destruct (negb (is_new_message upd)); [ reflexivity | ].
    destruct (get_user db (effective_chat_id upd)) as [user |]; [ | reflexivity ].
    destruct (check_rate_limit db today (effective_chat_id upd) _)
      as [[[user' okay] rejected] | e]; [ | reflexivity ].
    destruct (send_rejection w rejected) as [o w1].
    destruct o; try reflexivity.
    destruct (negb okay); [ reflexivity | ].
    destruct (negb (passes_group_filter upd)); [ reflexivity | ].
    apply Hanswer. }
  split; [ | split ].
  - apply Hprompt. intros w' user.
    exact (proj1 (answer_failed_store U db w' upd user items)).
  - apply Hprompt. intros w' user.
    exact (proj2 (answer_failed_store U db w' upd user items)).
  - unfold tts. destruct (negb allowed); [ reflexivity | ].
    destruct (check_rate_limit db today (effective_chat_id upd) _)
      as [[[user okay] rejected] | e]; [ | reflexivity ].
    destruct (send_rejection w rejected) as [o w1].
    destruct o; try reflexivity.
    destruct (negb okay); [ reflexivity | ].
    destruct query_empty; [ reflexivity | ].
    unfold wrap_with_indicator. apply tts_fail_store.
Qed.

(** The same requests with a generation that succeeds are charged: three
    tokens and twenty characters here. *)
Example successful_generation_is_charged :
  let db : DB := {[ 7 := sample_user 7 ]} in
  let upd := mkUpdate 7 7 true true in
  (gpt35_rate <$> (prompt sample_utils 50 db (fresh_world []) upd
                     (Answered (Some ("Hi!", 3)))).1 !! 7) = Some 2 /\
  (gpt35_rate <$> (prompt sample_utils 50 db (fresh_world []) upd
                     (Streamed [("Hi", not_finished); ("Hi!", total 3)] false)).1 !! 7)
    = Some 2 /\
  (tts_rate <$> (tts 50 db (fresh_world []) upd true false (Some 20)).1 !! 7)
    = Some 980.
Proof. repeat split; reflexivity. Qed.

(** ** Streaming presenter *)

(** The test of the [elif], spelled out. *)
Lemma edit_due_spec (U : utils) (s : loop_state) (content : string)
    (tok : tokens) :
  edit_due U s content tok = true <->
  (get_stream_cutoff_values U content + backoff s
     < Z.abs (len content - len (prev s)) \/ tok <> not_finished).
Proof.
  unfold edit_due. rewrite orb_true_iff, Z.ltb_lt. split.
  - intros [Hfar | Hdone]; [ by left | right ].
    destruct tok; [ discriminate Hdone | discriminate ].
  - intros [Hfar | Hdone]; [ by left | right ].
    destruct tok; [ contradiction | reflexivity ].
Qed.

(** A partial that is an ordinary text within the length cap, met after
    the first send, reaches the test of the [elif]. *)
Lemma loop_body_after_first_send (U : utils) (s : loop_state) (w : world)
    (content : string) (tok : tokens) :
  is_direct_result U content = false ->
  is_blank content = false ->
  (length (split_into_chunks U content) <= 1)%nat ->
  i s <> 0%nat ->
  loop_body U s w (content, tok)
  = if edit_due U s content tok then live_edit s w content tok
    else Continue (finish_iteration s tok) w.
Proof.
  intros Hplain Htext Hcap Hsent. unfold loop_body.
  rewrite Hplain, Htext.
  assert (Hone : (1 <? length (split_into_chunks U content))%nat = false)
    by (apply Nat.ltb_ge; lia).
  rewrite Hone. simpl.
  assert (Hi : (i s =? 0)%nat = false) by (by apply Nat.eqb_neq).
  by rewrite Hi.
Qed.

Lemma loop_body_keeps_live_message (U : utils) (s : loop_state) (w : world)
    (item : string * tokens) (s' : loop_state) (w' : world) :
  has_live_message s ->
  loop_body U s w item = Continue s' w' ->
  has_live_message s'.
Proof.
  unfold has_live_message. intros Hlive Hstep. destruct item as [content tok].
  unfold loop_body in Hstep.
  destruct (is_direct_result U content);
    [ destruct (transport w handle_direct_result) as [o0 w0]; by destruct o0 | ].
  destruct (is_blank content); [ by injection Hstep as <- <- | ].
  destruct (_ && _).
  - unfold segment_rollover in Hstep.
    destruct (transport_new _ _) as [[o m] w2].
    destruct m; injection Hstep as <- <-; simpl; [ discriminate | exact Hlive ].
  - destruct (Nat.eqb_spec (i s) 0) as [Hzero | Hpos].
    + unfold first_send in Hstep.
      destruct (match sent_message s with Some m => _ | None => _ end) as [deleted w1].
      destruct deleted; try (injection Hstep as <- <-; intros Hi; contradiction).
      destruct (transport_new _ _) as [[o m] w2].
      destruct m; injection Hstep as <- <-; simpl;
        [ discriminate | intros Hi; contradiction ].
    + destruct (edit_due U s _ tok).
      * unfold live_edit in Hstep. simpl in Hstep.
        destruct (sent_message s) as [m |] eqn:Hm;
          [ | exfalso; by apply Hlive ].
        destruct (transport _ _) as [o w1].
        destruct o; injection Hstep as <- <-; simpl; rewrite Hm; discriminate.
      * injection Hstep as <- <-. simpl. auto.
Qed.

Lemma stream_loop_keeps_live_message (U : utils)
    (items : list (string * tokens)) :
  forall (s : loop_state) (w : world) (s' : loop_state) (w' : world),
    has_live_message s ->
    stream_loop U s w items = Continue s' w' ->
    has_live_message s'.
Proof.
  induction items as [| item rest IH]; intros s w s' w' Hlive Hrun.
  - simpl in Hrun. by injection Hrun as <- <-.
  - simpl in Hrun.
    destruct (loop_body U s w item) as [s1 w1 | |] eqn:Hstep; try discriminate.
    apply (IH s1 w1 s' w'); [ | exact Hrun ].
    by apply (loop_body_keeps_live_message U s w item s1 w1).
Qed.

(** C7 does not hold as worded.  Two runs with a cutoff of 15 characters
    and an unfinished stream.
    In the first the partial sent first is what the chat shows and the
    second partial is one character longer; the edit is issued all the
    same, because the second partial is measured against [prev], which the
    first send has not set.  In the second run the third partial is
    skipped and the fourth, eight characters longer than the third, is
    edited in, because it is measured against the second partial, the last
    one edited in, from which it differs by seventeen. *)
Lemma edit_issued_for_small_change :
  let p1 := "Hello, how are you?!" in
  let p2 := "Hello, how are you?!I" in
  let p3 := "Hello, how are you?!I am fine." in
  let p4 := "Hello, how are you?!I am fine. Thanks!" in
  (stream_loop sample_utils initial_loop (fresh_world [])
     [(p1, not_finished); (p2, not_finished)]
   = Continue (mkLoop 2 p2 (Some 0%nat) 0 0 0)
       (mkWorld [] 1
          [Called (reply_text p1 true false) Ok;
           Called (edit_message_with_retry 0 p2 (Some false)) Ok;
           Slept Hundredth]) /\
   ~ spec_edit_rule (get_stream_cutoff_values sample_utils p2 + 0) p1 p2
       not_finished) /\
  (stream_loop sample_utils initial_loop (fresh_world [])
     [(p1, not_finished); (p2, not_finished); (p3, not_finished);
      (p4, not_finished)]
   = Continue (mkLoop 4 p4 (Some 0%nat) 0 0 0)
       (mkWorld [] 1
          [Called (reply_text p1 true false) Ok;
           Called (edit_message_with_retry 0 p2 (Some false)) Ok;
           Slept Hundredth;
           Called (edit_message_with_retry 0 p4 (Some false)) Ok;
           Slept Hundredth]) /\
   ~ spec_edit_rule (get_stream_cutoff_values sample_utils p4 + 0) p3 p4
       not_finished).
Proof.
  split; (split; [ reflexivity | ]);
    unfold spec_edit_rule; vm_compute; intros [Hfar | Hdone];
    [ discriminate Hfar | by apply Hdone | discriminate Hfar | by apply Hdone ].
Qed.

(** C7, amended: after the first send, for a partial within the length
    cap, the edit is issued exactly when the length of the partial differs
    from the length of [prev], the content of the last edit attempted, by
    more than the cutoff plus the backoff, or the stream is finished; the
    partial then becomes [prev].  Otherwise the iteration calls nothing
    and leaves [prev] as it is, so that small steps add up until they
    exceed the cutoff. *)
Theorem edit_exactly_when_due (U : utils) (s : loop_state) (w : world)
    (content : string) (tok : tokens) (m : nat) :
  is_direct_result U content = false ->
  is_blank content = false ->
  (length (split_into_chunks U content) <= 1)%nat ->
  i s <> 0%nat ->
  sent_message s = Some m ->
  (spec_edit_rule (get_stream_cutoff_values U content + backoff s)
     (prev s) content tok ->
   exists o s' w' after,
     loop_body U s w (content, tok) = Continue s' w' /\
     prev s' = content /\
     log w' = log w
              ++ Called (edit_message_with_retry m content (Some (finished tok))) o
              :: after) /\
  (~ spec_edit_rule (get_stream_cutoff_values U content + backoff s)
       (prev s) content tok ->
   loop_body U s w (content, tok) = Continue (finish_iteration s tok) w).
Proof.
  intros Hplain Htext Hcap Hsent Hlive.
  rewrite (loop_body_after_first_send U s w content tok Hplain Htext Hcap Hsent).
  unfold spec_edit_rule. split; intros Hrule.
  - apply edit_due_spec in Hrule. rewrite Hrule.
    unfold live_edit. simpl. rewrite Hlive. unfold transport.
    destruct (pending w) as [| o rest].
    + exists Ok. do 3 eexists. split; [ reflexivity | ].
      split; [ reflexivity | ]. simpl. rewrite <- app_assoc. reflexivity.
    + exists o.
      destruct o; do 3 eexists; (split; [ reflexivity | ]);
        (split; [ reflexivity | ]); simpl;
        first [ rewrite <- app_assoc; reflexivity | reflexivity ].
  - assert (Hnot : edit_due U s content tok = false).
    { destruct (edit_due U s content tok) eqn:Hdue; [ | reflexivity ].
      exfalso. apply Hrule. by apply edit_due_spec. }
    by rewrite Hnot.
Qed.

Lemma edit_exactly_when_due_witness :
  let s := mkLoop 1 "Hello" (Some 0%nat) 0 0 0 in
  let w := mkWorld [] 1 [Called (reply_text "Hello" true false) Ok] in
  let content := "Hello, how are you today?" in
  (spec_edit_rule (get_stream_cutoff_values sample_utils content + backoff s)
     (prev s) content not_finished ->
   exists o s' w' after,
     loop_body sample_utils s w (content, not_finished) = Continue s' w' /\
     prev s' = content /\
     log w' = log w
              ++ Called (edit_message_with_retry 0 content
                           (Some (finished not_finished))) o
              :: after) /\
  (~ spec_edit_rule (get_stream_cutoff_values sample_utils content + backoff s)
       (prev s) content not_finished ->
   loop_body sample_utils s w (content, not_finished)
   = Continue (finish_iteration s not_finished) w).
Proof.
  apply (edit_exactly_when_due sample_utils (mkLoop 1 "Hello" (Some 0%nat) 0 0 0)
           (mkWorld [] 1 [Called (reply_text "Hello" true false) Ok])
           "Hello, how are you today?" not_finished 0%nat).
  - reflexivity.
  - reflexivity.
  - simpl. lia.
  - simpl. lia.
  - reflexivity.
Defined.




(** The text of a rate-limited edit comes back when a later item carries
    it and is edited in.  Here the second partial is rate-limited; the
    third item repeats its text and issues no call; the closing item
    repeats it once more and is edited in: the text is submitted twice, the
    second time by the closing item and not by a retry. *)
Example rate_limited_text_returns_with_closing_item :
  let p1 := "Hello, how are you?!" in
  let p2 := "Hello, how are you?! I am fine, thanks." in
  let trace :=
    [Called (reply_text p1 true false) Ok;
     Called (edit_message_with_retry 0 p2 (Some false)) (RetryAfter 7);
     Slept (Seconds 7);
     Called (edit_message_with_retry 0 p2 (Some true)) Ok;
     Slept Hundredth] in
  stream_loop sample_utils initial_loop (fresh_world [Ok; RetryAfter 7])
    [(p1, not_finished); (p2, not_finished); (p2, not_finished); (p2, total 12)]
  = Continue (mkLoop 3 p2 (Some 0%nat) 5 0 12) (mkWorld [] 1 trace) /\
  edit_attempts p2 trace = 2%nat.
Proof. split; reflexivity. Qed.

(** The last partial of a stream can be the one that is rate-limited: it
    is then never shown, and the token count it carries is not taken. *)
Example rate_limited_final_partial_is_lost :
  stream_loop sample_utils initial_loop (fresh_world [Ok; RetryAfter 7])
    [("Hello", not_finished); ("Hello, how are you today?", total 9)]
  = Continue (mkLoop 1 "Hello, how are you today?" (Some 0%nat) 5 0 0)
      (mkWorld [] 1
         [Called (reply_text "Hello" true false) Ok;
          Called (edit_message_with_retry 0 "Hello, how are you today?" (Some true))
            (RetryAfter 7);
          Slept (Seconds 7)]).
Proof. reflexivity. Qed.

(** * Further properties of the code *)

(** ** Quota policy *)

(** X2: [check_rate_limit] lets a request through exactly when the account
    is not past its end date and the balance asked for is positive; it
    sends a reply exactly when it turns the request away, and a call that
    leaves [rate_type] at its default is always turned away. *)
Theorem check_rate_limit_allows_iff (db : DB) (today cid : Z) (user : User)
    (k : rate_kind) (rate_type : option rate_kind) :
  get_user db cid = Some user ->
  (check_rate_limit db today cid (Some k) = Done (user, true, None) <->
   today <= rate_end_date user /\ 0 < balance user k) /\
  exists okay rejected,
    check_rate_limit db today cid rate_type = Done (user, okay, rejected) /\
    (okay = true <-> rejected = None) /\
    (rate_type = None -> okay = false).
Proof.
  intros Hrow. split.
  - split.
    + unfold check_rate_limit. rewrite Hrow. simpl.
      destruct (Z.ltb_spec (rate_end_date user) today); [ discriminate | ].
      destruct (Z.eqb_spec (balance user k) 0); [ discriminate | ].
      destruct (Z.leb_spec (balance user k) 0); [ discriminate | ].
      intros _. lia.
    + intros [Hlive Hpos]. by apply positive_balance_is_allowed.
  - unfold check_rate_limit. rewrite Hrow.
    destruct (rate_end_date user <? today).
    { do 2 eexists. split; [ reflexivity | ]. split; [ | done ].
      split; discriminate. }
    destruct rate_type as [k' |]; simpl.
    + destruct (balance user k' =? 0).
      { do 2 eexists. split; [ reflexivity | ]. split; [ | done ].
        split; discriminate. }
      destruct (balance user k' <=? 0).
      * do 2 eexists. split; [ reflexivity | ]. split; [ | done ].
        split; discriminate.
      * do 2 eexists. split; [ reflexivity | ]. split; done.
    + do 2 eexists. split; [ reflexivity | ]. split; [ | done ].
      split; discriminate.
Qed.

Lemma check_rate_limit_allows_iff_witness :
  let db : DB := {[ 7 := sample_user 7 ]} in
  (check_rate_limit db 50 7 (Some dalle_kind) = Done (sample_user 7, true, None) <->
   50 <= rate_end_date (sample_user 7) /\ 0 < balance (sample_user 7) dalle_kind) /\
  exists okay rejected,
    check_rate_limit db 50 7 None = Done (sample_user 7, okay, rejected) /\
    (okay = true <-> rejected = None) /\
    (@None rate_kind = None -> okay = false).
Proof.
  apply (check_rate_limit_allows_iff {[ 7 := sample_user 7 ]} 50 7 (sample_user 7)
           dalle_kind None).
  reflexivity.
Defined.

(** ** Renewal and payments *)

(** X3: [start] never changes a row that is already there: a chat that is
    known keeps its balances and end date however often it sends /start
    (the trial is granted once), and the rows of other chats are not
    touched when a new one is created, whatever the Telegram calls do. *)
Theorem start_keeps_existing_rows (rates : Rates) (today : Z) (db : DB)
    (w : world) (cid : Z) (uname : option string) (cid' : Z) (u' : User) :
  db !! cid' = Some u' ->
  (start rates today db w cid uname).1 !! cid' = Some u'.
Proof.
  intros Hrow. unfold start, is_user_exists.
  destruct (db !! cid) as [u |] eqn:Hcid; [ exact Hrow | ].
  assert (Hne : cid <> cid') by congruence.
  destruct (transport w (send_notice Welcome)) as [o1 w1].
  destruct o1; try exact Hrow.
  destruct (transport w1 (send_notice NewUser)) as [o2 w2].
  assert (Hcreated : forall w3,
    (match rates_get rates "base" with
     | Some base =>
         match create_user db
                 (mkUser cid uname (r_gpt4_rate base) (r_gpt35_rate base)
                    (r_dalle_rate base) (r_whisper_rate base) (r_tts_rate base)
                    (today + 3) "base" true None "gpt35" "assistant") with
         | Done db' => (db', w3)
         | Raised e => (db, record w3 (Uncaught e))
         end
     | None => (db, record w3 (Uncaught KeyError))
     end).1 !! cid' = Some u').
  { intros w3. destruct (rates_get rates "base") as [base |]; [ | exact Hrow ].
    unfold create_user. destruct (row_fits _); [ | exact Hrow ].
    simpl. rewrite Hcid. simpl. by rewrite lookup_insert_ne. }
  destruct o2; try exact Hrow; apply Hcreated.
Qed.

Lemma start_keeps_existing_rows_witness :
  (start sample_rates 90 {[ 7 := paid_user ]} (fresh_world []) 7 (Some "alice")).1 !! 7
  = Some paid_user.
Proof.
  apply (start_keeps_existing_rows sample_rates 90 {[ 7 := paid_user ]}
           (fresh_world []) 7 (Some "alice") 7 paid_user).
  reflexivity.
Defined.

Lemma change_rate_writes_other (db : DB) (today cid cid' : Z) (key : string)
    (rate : Rate) :
  cid <> cid' ->
  change_rate_writes db today cid key rate !! cid' = db !! cid'.
Proof.
  intros Hne. unfold change_rate_writes.
  by rewrite !update_user_field_other.
Qed.

Lemma payment_writes_other (db : DB) (today user_id payment_id cid' : Z)
    (key : string) (rate : Rate) :
  user_id <> cid' ->
  payment_writes db today user_id payment_id key rate !! cid' = db !! cid'.
Proof.
  intros Hne. unfold payment_writes.
  by rewrite !update_user_field_other.
Qed.

(** X4: [change_rate] writes nothing unless the rate number is 1, 2, 3 or
    4 and the user is found: with any other number, or with a chat id that
    has no row, the table is returned as it was; and when it does write,
    for a chat id, only the row of that chat changes. *)
Theorem change_rate_writes_only_the_target (rates : Rates) (today : Z)
    (db : DB) (w : world) (cid : Z) (rate_number : option Z) (cid' : Z) :
  (forall u, db !! cid = Some u -> chat_id u = cid) ->
  ((forall n, rate_number = Some n -> n < 1 \/ 4 < n) ->
   forall user_identifier,
     (change_rate rates today db w user_identifier rate_number).1 = db) /\
  (db !! cid = None ->
   (change_rate rates today db w (inl cid) rate_number).1 = db) /\
  (cid' <> cid ->
   (change_rate rates today db w (inl cid) rate_number).1 !! cid' = db !! cid').
Proof.
  intros Hkey. split; [ | split ].
  - intros Hbad user_identifier. unfold change_rate.
    destruct rate_number as [n |]; [ | reflexivity ].
    destruct (Hbad n eq_refl) as [Hlow | Hhigh].
    + assert (Hno : (Z.eqb n 1 || Z.eqb n 2 || Z.eqb n 3 || Z.eqb n 4)%bool = false).
      { rewrite !orb_false_iff. repeat split; apply Z.eqb_neq; lia. }
      by rewrite Hno.
    + assert (Hno : (Z.eqb n 1 || Z.eqb n 2 || Z.eqb n 3 || Z.eqb n 4)%bool = false).
      { rewrite !orb_false_iff. repeat split; apply Z.eqb_neq; lia. }
      by rewrite Hno.
  - intros Hmissing. unfold change_rate, get_user.
    destruct rate_number as [n |]; [ | reflexivity ].
    destruct (_ || _)%bool; [ | reflexivity ].
    destruct (nth_error rates _) as [[key rate] |]; [ | reflexivity ].
    by rewrite Hmissing.
  - intros Hne. unfold change_rate, get_user.
    destruct rate_number as [n |]; [ | reflexivity ].
    destruct (_ || _)%bool; [ | reflexivity ].
    destruct (nth_error rates _) as [[key rate] |]; [ | reflexivity ].
    destruct (db !! cid) as [u |] eqn:Hrow; [ | reflexivity ].
    simpl. rewrite (Hkey u eq_refl). by apply change_rate_writes_other.
Qed.

Lemma change_rate_writes_only_the_target_witness :
  let db : DB := {[ 7 := sample_user 7; 8 := sample_user 8 ]} in
  ((forall n, Some 2 = Some n -> n < 1 \/ 4 < n) ->
   forall user_identifier,
     (change_rate sample_rates 50 db (fresh_world []) user_identifier (Some 2)).1 = db) /\
  (db !! 7 = None ->
   (change_rate sample_rates 50 db (fresh_world []) (inl 7) (Some 2)).1 = db) /\
  (8 <> 7 ->
   (change_rate sample_rates 50 db (fresh_world []) (inl 7) (Some 2)).1 !! 8 = db !! 8).
Proof.
  apply (change_rate_writes_only_the_target sample_rates 50
           {[ 7 := sample_user 7; 8 := sample_user 8 ]} (fresh_world []) 7 (Some 2) 8).
  intros u Hrow. vm_compute in Hrow. by injection Hrow as <-.
Defined.

(** X5: [check_pay] writes only after a confirmation and only to the payer:
    when the gateway's answer has no state or a code other than 100 the
    table is returned as it was, and in every case the rows of all other
    chats are as before. *)
Theorem check_pay_writes_only_the_payer (rates : Rates) (today : Z) (db : DB)
    (w : world) (user_id payment_id : Z) (response : OperationStateResponse) :
  ((response = NoState \/
    exists code summ, response = State code summ /\ code <> "100") ->
   (check_pay rates today db w user_id payment_id response).1 = db) /\
  forall cid', cid' <> user_id ->
    (check_pay rates today db w user_id payment_id response).1 !! cid' = db !! cid'.
Proof.
  split.
  - intros [-> | (code & summ & -> & Hcode)]; [ reflexivity | ].
    unfold check_pay. destruct (String.eqb_spec code "100"); [ contradiction | done ].
  - intros cid' Hne.
    assert (Hconfirmed : forall w' summ,
      (apply_confirmed rates today db w' user_id payment_id summ).1 !! cid'
      = db !! cid').
    { intros w' summ. rewrite apply_confirmed_store.
      destruct (find_rate rates summ) as [[key rate] |]; [ | reflexivity ].
      apply payment_writes_other. congruence. }
    unfold check_pay. destruct response as [| code summ]; [ reflexivity | ].
    destruct (String.eqb code "100"); [ | reflexivity ].
    destruct (is_last_payment db user_id payment_id) as [[|] |]; auto.
    destruct (transport w _) as [o w1]. destruct o; auto.
Qed.



(** X7: the tier a payment buys is the first one, in the order of the
    table, whose price is the amount paid: when two tiers have the same
    price the later one cannot be bought. *)
Theorem find_rate_is_first_match (rates : Rates) (summ : Z) (key : string)
    (rate : Rate) :
  find_rate rates summ = Some (key, rate) <->
  exists before after,
    rates = before ++ (key, rate) :: after /\
    r_price rate = summ /\
    no_tier_costs before summ.
Proof.
  split.
  - revert key rate. induction rates as [| [k r] rest IH]; intros key rate; simpl;
      [ discriminate | ].
    destruct (Z.eqb_spec (r_price r) summ) as [Hprice | Hprice].
    + intros [= <- <-]. exists [], rest. split; [ reflexivity | ].
      split; [ exact Hprice | ]. intros key' r' [].
    + intros Hfound. destruct (IH key rate Hfound) as (before & after & -> & Hp & Hnone).
      exists ((k, r) :: before), after. split; [ reflexivity | ].
      split; [ exact Hp | ].
      intros key' r' [[= <- <-] | Hin]; [ exact Hprice | by apply (Hnone key' r') ].
  - intros (before & after & -> & Hprice & Hnone).
    induction before as [| [k r] before IH]; simpl.
    + apply Z.eqb_eq in Hprice. by rewrite Hprice.
    + destruct (Z.eqb_spec (r_price r) summ) as [Hsame | _].
      * exfalso. apply (Hnone k r); [ by left | exact Hsame ].
      * apply IH. intros key' r' Hin. apply (Hnone key' r'). by right.
Qed.

(** ** Streaming presenter *)

Lemma loop_body_progress (U : utils) (s : loop_state) (w : world)
    (item : string * tokens) (s' : loop_state) (w' : world) :
  loop_body U s w item = Continue s' w' ->
  (i s <= i s')%nat /\
  backoff s <= backoff s' /\
  5 * Z.of_nat (i s') + backoff s' <= 5 * Z.of_nat (i s) + backoff s + 5.
Proof.
  intros Hstep. destruct item as [content tok]. unfold loop_body in Hstep.
  destruct (is_direct_result U content);
    [ destruct (transport w handle_direct_result) as [o0 w0]; by destruct o0 | ].
  destruct (is_blank content); [ injection Hstep as <- <-; lia | ].
  destruct (_ && _).
  - unfold segment_rollover in Hstep.
    destruct (transport_new _ _) as [[o m] w2].
    destruct m; injection Hstep as <- <-; simpl; lia.
  - destruct (i s =? 0)%nat.
    + unfold first_send in Hstep.
      destruct (match sent_message s with Some m => _ | None => _ end) as [deleted w1].
      destruct deleted; try (injection Hstep as <- <-; lia).
      destruct (transport_new _ _) as [[o m] w2].
      destruct m; injection Hstep as <- <-; simpl; lia.
    + destruct (edit_due U s _ tok).
      * unfold live_edit in Hstep. simpl in Hstep.
        destruct (sent_message s) as [m |];
          [ | injection Hstep as <- <-; simpl; lia ].
        destruct (transport _ _) as [o w1].
        destruct o; injection Hstep as <- <-; simpl; lia.
      * injection Hstep as <- <-. simpl. lia.
Qed.

Lemma stream_loop_progress (U : utils) (items : list (string * tokens)) :
  forall (s : loop_state) (w : world) (s' : loop_state) (w' : world),
    stream_loop U s w items = Continue s' w' ->
    (i s <= i s')%nat /\
    backoff s <= backoff s' /\
    5 * Z.of_nat (i s') + backoff s'
      <= 5 * Z.of_nat (i s) + backoff s + 5 * Z.of_nat (length items).
Proof.
  induction items as [| item rest IH]; intros s w s' w' Hrun.
  - simpl in Hrun. injection Hrun as <- <-. simpl. lia.
  - cbn [stream_loop] in Hrun.
    destruct (loop_body U s w item) as [s1 w1 | |] eqn:Hstep; try discriminate.
    apply loop_body_progress in Hstep. apply IH in Hrun.
    cbn [length]. lia.
Qed.

(** X8: in every run of the streaming loop that reaches its end, each item
    of the stream has either advanced the counter [i] by one, or added 5 to
    the backoff, or done neither, so that [5 * i + backoff] is at most five
    times the number of items and the backoff is never negative; and
    whenever [i] is positive there is a live message to edit. *)
Theorem stream_loop_is_bounded (U : utils) (w : world)
    (items : list (string * tokens)) (s' : loop_state) (w' : world) :
  stream_loop U initial_loop w items = Continue s' w' ->
  has_live_message s' /\
  0 <= backoff s' /\
  5 * Z.of_nat (i s') + backoff s' <= 5 * Z.of_nat (length items).
Proof.
  intros Hrun. split.
  - apply (stream_loop_keeps_live_message U items initial_loop w s' w');
      [ | exact Hrun ].
    intros Hi. by contradiction Hi.
  - apply stream_loop_progress in Hrun. simpl in Hrun. lia.
Qed.

Lemma stream_loop_is_bounded_witness :
  let items := [("Hello", not_finished); ("Hello, how are you today?", total 9)] in
  let s' := mkLoop 1 "Hello, how are you today?" (Some 0%nat) 5 0 0 in
  has_live_message s' /\
  0 <= backoff s' /\
  5 * Z.of_nat (i s') + backoff s' <= 5 * Z.of_nat (length items).
Proof.
  apply (stream_loop_is_bounded sample_utils (fresh_world [Ok; RetryAfter 7])
           [("Hello", not_finished); ("Hello, how are you today?", total 9)]
           (mkLoop 1 "Hello, how are you today?" (Some 0%nat) 5 0 0)
           (mkWorld [] 1
              [Called (reply_text "Hello" true false) Ok;
               Called (edit_message_with_retry 0 "Hello, how are you today?"
                         (Some true)) (RetryAfter 7);
               Slept (Seconds 7)])).
  reflexivity.
Defined.

Lemma sends_app (l1 l2 : list event) :
  sends (l1 ++ l2) = (sends l1 + sends l2)%nat.
Proof.
  induction l1 as [| e l1 IH]; [ reflexivity | ].
  destruct e as [c o | | | | |]; simpl; try exact IH.
  destruct c; simpl; rewrite IH; reflexivity.
Qed.

Lemma loop_body_blank (U : utils) (s : loop_state) (w : world)
    (content : string) (tok : tokens) :
  is_direct_result U content = false ->
  is_blank content = true ->
  loop_body U s w (content, tok) = Continue s w.
Proof. intros Hplain Hblank. unfold loop_body. by rewrite Hplain, Hblank. Qed.

(** After the first send, with Telegram answering every call, the loop
    only edits. *)
Lemma stream_loop_edits_only (U : utils) (items : list (string * tokens)) :
  forall (s : loop_state) (w : world),
    Forall (plain_partial U) items ->
    i s <> 0%nat ->
    sent_message s <> None ->
    pending w = [] ->
    exists s' w',
      stream_loop U s w items = Continue s' w' /\
      sends (log w') = sends (log w) /\
      pending w' = [].
Proof.
  induction items as [| [content tok] rest IH]; intros s w Hplain Hi Hlive Hcalm.
  - exists s, w. auto.
  - inversion Hplain as [| item rest' [Hdirect Hcap] Hrest]; subst.
    simpl in Hdirect, Hcap. cbn [stream_loop].
    destruct (is_blank content) eqn:Hblank.
    + rewrite (loop_body_blank U s w content tok Hdirect Hblank). by apply IH.
    + rewrite (loop_body_after_first_send U s w content tok Hdirect Hblank Hcap Hi).
      destruct (edit_due U s content tok).
      * unfold live_edit. simpl.
        destruct (sent_message s) as [m |] eqn:Hm; [ | contradiction ].
        unfold transport. rewrite Hcalm.
        destruct (IH (finish_iteration (set_prev s content) tok)
                    (sleep (mkWorld [] (next_message_id w)
                              (log w ++ [Called (edit_message_with_retry m content
                                                   (Some (finished tok))) Ok]))
                       Hundredth))
          as (s' & w' & Hrun & Hsends & Hcalm');
          [ exact Hrest | discriminate | simpl; by rewrite Hm | reflexivity | ].
        exists s', w'. split; [ exact Hrun | ]. split; [ | exact Hcalm' ].
        rewrite Hsends. simpl. rewrite !sends_app. simpl. lia.
      * destruct (IH (finish_iteration s tok) w) as (s' & w' & Hrun & Hsends & Hcalm');
          [ exact Hrest | discriminate | exact Hlive | exact Hcalm | ].
        exists s', w'. split; [ exact Hrun | ]. split; [ exact Hsends | exact Hcalm' ].
Qed.

(** X9: when every partial is an ordinary text within the length cap and
    Telegram answers every call, the loop sends exactly one new message,
    for the first partial that is not blank, and none when all partials are
    blank; everything after that is an edit. *)
Theorem stream_loop_sends_once (U : utils) (items : list (string * tokens)) :
  forall (w : world),
    Forall (plain_partial U) items ->
    pending w = [] ->
    exists s' w',
      stream_loop U initial_loop w items = Continue s' w' /\
      sends (log w')
      = (sends (log w)
         + (if existsb (fun item => negb (is_blank (fst item))) items
            then 1 else 0))%nat.
Proof.
  induction items as [| [content tok] rest IH]; intros w Hplain Hcalm.
  - exists initial_loop, w. split; [ reflexivity | ]. simpl. lia.
  - inversion Hplain as [| item rest' [Hdirect Hcap] Hrest]; subst.
    simpl in Hdirect, Hcap. cbn [stream_loop existsb fst].
    destruct (is_blank content) eqn:Hblank.
    + rewrite (loop_body_blank U initial_loop w content tok Hdirect Hblank).
      simpl. by apply IH.
    + unfold loop_body. rewrite Hdirect, Hblank.
      assert (Hone : (1 <? length (split_into_chunks U content))%nat = false)
        by (apply Nat.ltb_ge; lia).
      rewrite Hone. simpl.
      unfold first_send, transport_new, transport. simpl. rewrite Hcalm. simpl.
      destruct (stream_loop_edits_only U rest
                  (finish_iteration
                     (set_sent_message initial_loop (Some (next_message_id w))) tok)
                  (mkWorld [] (S (next_message_id w))
                     (log w ++ [Called (reply_text content true false) Ok])))
        as (s' & w' & Hrun & Hsends & _);
        [ exact Hrest | discriminate | discriminate | reflexivity | ].
      exists s', w'. split; [ exact Hrun | ].
      rewrite Hsends. simpl. rewrite sends_app. simpl. lia.
Qed.

Lemma stream_loop_sends_once_witness :
  exists s' w',
    stream_loop sample_utils initial_loop (fresh_world [])
      [("  ", not_finished); ("Hello", not_finished);
       ("Hello, how are you today?", total 9)] = Continue s' w' /\
    sends (log w')
    = (sends (log (fresh_world []))
       + (if existsb (fun item => negb (is_blank (fst item)))
               [("  ", not_finished); ("Hello", not_finished);
                ("Hello, how are you today?", total 9)]
          then 1 else 0))%nat.
Proof.
  apply (stream_loop_sends_once sample_utils
           [("  ", not_finished); ("Hello", not_finished);
            ("Hello, how are you today?", total 9)] (fresh_world [])).
  - repeat constructor; simpl; lia.
  - reflexivity.
Defined.

(** X10: an edit that fails, with whatever exception, is not repeated: the
    iteration adds 5 to the backoff, leaves the counter [i] and the token
    count where they were, keeps the partial as [prev], and the log gains
    the one call followed by the sleep of its handler ([retry_after]
    seconds, half a second after a timeout, none otherwise). *)
Theorem failed_edit_is_skipped (U : utils) (s : loop_state) (w : world)
    (content : string) (tok : tokens) (m : nat) (o : outcome)
    (rest : list outcome) :
  is_direct_result U content = false ->
  is_blank content = false ->
  (length (split_into_chunks U content) <= 1)%nat ->
  i s <> 0%nat ->
  sent_message s = Some m ->
  edit_due U s content tok = true ->
  pending w = o :: rest ->
  o <> Ok ->
  loop_body U s w (content, tok)
  = Continue
      (mkLoop (i s) content (Some m) (backoff s + 5) (stream_chunk s)
         (total_tokens s))
      (mkWorld rest (next_message_id w)
         (log w
          ++ Called (edit_message_with_retry m content (Some (finished tok))) o
          :: sleep_after o)).
Proof.
  intros Hplain Htext Hcap Hsent Hlive Hdue Hnext Hfail.
  rewrite (loop_body_after_first_send U s w content tok Hplain Htext Hcap Hsent).
  rewrite Hdue. unfold live_edit. simpl. rewrite Hlive.
  unfold transport. rewrite Hnext.
  unfold sleep, record, add_backoff. simpl. rewrite Hlive.
  destruct o; try contradiction; simpl; try reflexivity;
    by rewrite <- app_assoc.
Qed.

Lemma failed_edit_is_skipped_witness :
  let s := mkLoop 1 "" (Some 0%nat) 0 0 0 in
  let w := mkWorld [TimedOut] 1 [Called (reply_text "Hello" true false) Ok] in
  let content := "Hello, how are you today?" in
  loop_body sample_utils s w (content, not_finished)
  = Continue
      (mkLoop (i s) content (Some 0%nat) (backoff s + 5) (stream_chunk s)
         (total_tokens s))
      (mkWorld [] (next_message_id w)
         (log w
          ++ Called (edit_message_with_retry 0 content
                       (Some (finished not_finished))) TimedOut
          :: sleep_after TimedOut)).
Proof.
  apply (failed_edit_is_skipped sample_utils (mkLoop 1 "" (Some 0%nat) 0 0 0)
           (mkWorld [TimedOut] 1 [Called (reply_text "Hello" true false) Ok])
           "Hello, how are you today?" not_finished 0%nat TimedOut []).
  - reflexivity.
  - reflexivity.
  - simpl. lia.
  - simpl. lia.
  - reflexivity.
  - reflexivity.
  - reflexivity.
  - discriminate.
Defined.

(** ** Replies in chunks *)





Lemma send_chunks_calm (chunks : list string) :
  forall (w : world) (first : bool),
    pending w = [] ->
    (send_chunks w first chunks).1 = true /\
    pending (send_chunks w first chunks).2 = [].
Proof.
  induction chunks as [| chunk rest IH]; intros w first Hcalm; [ done | ].
  cbn [send_chunks]. unfold transport. rewrite Hcalm. by apply IH.
Qed.

(** ** The handlers [prompt] and [tts] *)

(** What [prompt] can do to the table: nothing, or the one debit. *)
Lemma answer_store_cases (U : utils) (db : DB) (w : world) (upd : Update)
    (user : User) (gen : generation) :
  (answer U db w upd user gen).1 = db \/
  exists amount,
    (answer U db w upd user gen).1
    = debit_row db user (from_user_id upd) (chat_kind user) amount.
Proof.
  unfold answer. destruct gen as [items raises | r].
  - destruct (transport w reply_chat_action) as [o w1].
    destruct o; try (left; apply chat_fail_store).
    destruct (stream_loop U initial_loop w1 items) as [s w2 | w2 | w2];
      [ | by left | left; apply chat_fail_store ].
    destruct raises; [ left; apply chat_fail_store | right; by eexists ].
  - unfold wrap_with_indicator.
    destruct r as [[response n] |]; [ | left; apply chat_fail_store ].
    destruct (is_direct_result U response).
    + destruct (transport w handle_direct_result) as [o w1].
      destruct o; try (left; apply chat_fail_store). right. by eexists.
    + destruct (send_chunks w true _) as [sent w1].
      destruct sent; [ right; by eexists | left; apply chat_fail_store ].
Qed.

Lemma prompt_store_cases (U : utils) (today : Z) (db : DB) (w : world)
    (upd : Update) (gen : generation) :
  (prompt U today db w upd gen).1 = db \/
  exists user amount,
    (prompt U today db w upd gen).1
    = debit_row db user (from_user_id upd) (chat_kind user) amount.
Proof.
  unfold prompt.
  destruct (negb (is_new_message upd)); [ by left | ].
  destruct (get_user db (effective_chat_id upd)) as [user0 |]; [ | by left ].
  destruct (check_rate_limit db today (effective_chat_id upd) _)
    as [[[user okay] rejected] | e]; [ | by left ].
  destruct (send_rejection w rejected) as [o w1].
  destruct o; try by left.
  destruct (negb okay); [ by left | ].
  destruct (negb (passes_group_filter upd)); [ by left | ].
  destruct (answer_store_cases U db w1 upd user gen) as [Hsame | [amount Hdebit]];
    [ by left | right; by exists user, amount ].
Qed.

Lemma tts_store_cases (today : Z) (db : DB) (w : world) (upd : Update)
    (allowed query_empty : bool) (speech : option Z) :
  (tts today db w upd allowed query_empty speech).1 = db \/
  exists user amount,
    (tts today db w upd allowed query_empty speech).1
    = debit_row db user (from_user_id upd) tts_kind amount.
Proof.
  unfold tts.
  destruct (negb allowed); [ by left | ].
  destruct (check_rate_limit db today (effective_chat_id upd) _)
    as [[[user okay] rejected] | e]; [ | by left ].
  destruct (send_rejection w rejected) as [o w1].
  destruct o; try by left.
  destruct (negb okay); [ by left | ].
  destruct query_empty; [ by left | ].
  unfold wrap_with_indicator.
  destruct speech as [n |]; [ | left; apply tts_fail_store ].
  destruct (transport w1 reply_voice) as [o w2].
  destruct o; try (left; apply tts_fail_store). right. by exists user, n.
Qed.

(** X12: a chat request or a speech request changes at most the row of the
    sender, [update.message.from_user.id]: the rows of all other chats,
    among them the group chat a message was sent in, are as before,
    whatever the generation returns and whatever Telegram does. *)
Theorem request_writes_only_the_sender (U : utils) (today : Z) (db : DB)
    (w : world) (upd : Update) (gen : generation) (allowed query_empty : bool)
    (speech : option Z) (cid : Z) :
  cid <> from_user_id upd ->
  (prompt U today db w upd gen).1 !! cid = db !! cid /\
  (tts today db w upd allowed query_empty speech).1 !! cid = db !! cid.
Proof.
  intros Hne. split.
  - destruct (prompt_store_cases U today db w upd gen)
      as [-> | (user & amount & ->)]; [ reflexivity | ].
    apply debit_row_other. congruence.
  - destruct (tts_store_cases today db w upd allowed query_empty speech)
      as [-> | (user & amount & ->)]; [ reflexivity | ].
    apply debit_row_other. congruence.
Qed.

Lemma request_writes_only_the_sender_witness :
  let db : DB := {[ (-100) := sample_user (-100); 7 := sample_user 7 ]} in
  let upd := mkUpdate (-100) 7 true true in
  (prompt sample_utils 50 db (fresh_world []) upd (Answered (Some ("Hi!", 3)))).1
    !! (-100) = db !! (-100) /\
  (tts 50 db (fresh_world []) upd true false (Some 20)).1 !! (-100) = db !! (-100).
Proof.
  apply (request_writes_only_the_sender sample_utils 50
           {[ (-100) := sample_user (-100); 7 := sample_user 7 ]} (fresh_world [])
           (mkUpdate (-100) 7 true true) (Answered (Some ("Hi!", 3))) true false
           (Some 20) (-100)).
  simpl. lia.
Defined.

Lemma check_rate_limit_denies (db : DB) (today cid : Z) (user : User)
    (k : rate_kind) :
  get_user db cid = Some user ->
  ~ (today <= rate_end_date user /\ 0 < balance user k) ->
  exists r, check_rate_limit db today cid (Some k) = Done (user, false, Some r).
Proof.
  intros Hrow Hnot. unfold check_rate_limit. rewrite Hrow. simpl.
  destruct (Z.ltb_spec (rate_end_date user) today); [ by eexists | ].
  destruct (Z.eqb_spec (balance user k) 0); [ by eexists | ].
  destruct (Z.leb_spec (balance user k) 0); [ by eexists | ].
  exfalso. apply Hnot. lia.
Qed.

(** X13: a chat request that [check_rate_limit] turns away costs nothing
    and produces nothing but the rejection: the table is returned as it
    was, and the only Telegram call of the handler is the reply that names
    the reason; the generation is not started. *)
Theorem rejected_request_only_replies (U : utils) (today : Z) (db : DB)
    (w : world) (upd : Update) (gen : generation) (user : User) :
  is_new_message upd = true ->
  get_user db (effective_chat_id upd) = Some user ->
  ~ (today <= rate_end_date user /\ 0 < balance user (chat_kind user)) ->
  (prompt U today db w upd gen).1 = db /\
  exists r o tail,
    log (prompt U today db w upd gen).2
    = log w ++ Called (send_notice (Rejected r)) o :: tail /\
    (tail = [] \/ tail = [Uncaught TransportError]).
Proof.
  intros Hnew Hrow Hnot.
  destruct (check_rate_limit_denies db today (effective_chat_id upd) user
              (chat_kind user) Hrow Hnot) as [r Hdenied].
  unfold prompt. rewrite Hnew, Hrow. simpl. rewrite Hdenied.
  unfold send_rejection, transport.
  destruct (pending w) as [| o rest].
  - split; [ reflexivity | ]. exists r, Ok, []. split; [ reflexivity | by left ].
  - destruct o; (split; [ reflexivity | ]); simpl;
      first [ exists r, Ok, []; split; [ reflexivity | by left ]
            | eexists r, _, _; rewrite <- app_assoc;
              split; [ reflexivity | by right ] ].
Qed.

Lemma rejected_request_only_replies_witness :
  let db : DB := {[ 7 := sample_user 7 ]} in
  let upd := mkUpdate 7 7 true true in
  (prompt sample_utils 101 db (fresh_world []) upd (Answered (Some ("Hi!", 3)))).1 = db /\
  exists r o tail,
    log (prompt sample_utils 101 db (fresh_world []) upd
           (Answered (Some ("Hi!", 3)))).2
    = log (fresh_world []) ++ Called (send_notice (Rejected r)) o :: tail /\
    (tail = [] \/ tail = [Uncaught TransportError]).
Proof.
  apply (rejected_request_only_replies sample_utils 101 {[ 7 := sample_user 7 ]}
           (fresh_world []) (mkUpdate 7 7 true true) (Answered (Some ("Hi!", 3)))
           (sample_user 7)).
  - reflexivity.
  - reflexivity.
  - simpl. lia.
Defined.





(** ** Slices and [mask_api_key] *)

Lemma slice_index_nonneg (n : nat) (k : Z) :
  0 <= k -> slice_index n k = Nat.min n (Z.to_nat k).
Proof.
  intros Hk. unfold slice_index.
  destruct (Z.ltb_spec k 0); lia.
Qed.

Lemma slice_index_neg (n : nat) (k : Z) :
  k < 0 -> slice_index n k = (n - Z.to_nat (- k))%nat.
Proof.
  intros Hk. unfold slice_index.
  destruct (Z.ltb_spec k 0); lia.
Qed.

Lemma firstn_min_length {A : Type} (l : list A) (k : nat) :
  firstn (Nat.min (length l) k) l = firstn k l.
Proof.
  destruct (Nat.le_gt_cases k (length l)) as [Hle | Hgt].
  - by rewrite Nat.min_r.
  - rewrite Nat.min_l by lia. rewrite !firstn_all2; auto; lia.
Qed.

Lemma py_slice_head {A : Type} (l : list A) (k : Z) :
  0 <= k -> py_slice l None (Some k) = firstn (Z.to_nat k) l.
Proof.
  intros Hk. unfold py_slice. rewrite slice_index_nonneg by exact Hk.
  rewrite Nat.sub_0_r. simpl. apply firstn_min_length.
Qed.

Lemma py_slice_tail {A : Type} (l : list A) (k : Z) :
  k < 0 -> py_slice l (Some k) None = skipn (length l - Z.to_nat (- k)) l.
Proof.
  intros Hk. unfold py_slice. rewrite slice_index_neg by exact Hk.
  apply firstn_all2. rewrite length_skipn. lia.
Qed.

Lemma In_py_slice {A : Type} (l : list A) (start stop : option Z) (x : A) :
  In x (py_slice l start stop) -> In x l.
Proof.
  unfold py_slice. intros Hin.
  set (lo := match start with Some k => _ | None => _ end) in *.
  set (hi := match stop with Some k => _ | None => _ end) in *.
  rewrite <- (firstn_skipn lo l). apply in_or_app. right.
  rewrite <- (firstn_skipn (hi - lo) (skipn lo l)). apply in_or_app. by left.
Qed.

Lemma length_string_of_list_ascii (l : list ascii) :
  String.length (string_of_list_ascii l) = length l.
Proof. induction l as [| c l IH]; simpl; [ reflexivity | by rewrite IH ]. Qed.

Lemma string_of_list_ascii_app (l1 l2 : list ascii) :
  string_of_list_ascii (l1 ++ l2)
  = (string_of_list_ascii l1 ++ string_of_list_ascii l2)%string.
Proof.
  induction l1 as [| c l1 IH]; [ reflexivity | ].
  change (String c (string_of_list_ascii (l1 ++ l2))
          = String c (string_of_list_ascii l1 ++ string_of_list_ascii l2)%string).
  by rewrite IH.
Qed.

Lemma length_string_append (s1 s2 : string) :
  String.length (s1 ++ s2)%string = (String.length s1 + String.length s2)%nat.
Proof. induction s1 as [| c s1 IH]; simpl; [ reflexivity | by rewrite IH ]. Qed.

Lemma length_list_ascii_of_string (s : string) :
  length (list_ascii_of_string s) = String.length s.
Proof. induction s as [| c s IH]; simpl; [ reflexivity | by rewrite IH ]. Qed.

(** X16: the masked form of a key has the first six and the last four
    characters around three dots, each part cut to the length of the key,
    so it is at most 13 characters long; and a key of ten characters or
    fewer is not masked at all: the two parts overlap or meet, and the key
    is the first part followed by the end of the second. *)
Theorem mask_api_key_shows_short_keys (api_key : string) :
  String.length (mask_api_key api_key)
  = (Nat.min 6 (String.length api_key) + 3
     + Nat.min 4 (String.length api_key))%nat /\
  ((String.length api_key <= 10)%nat ->
   exists head overlap tail,
     mask_api_key api_key = (head ++ "..." ++ overlap ++ tail)%string /\
     api_key = (head ++ tail)%string).
Proof.
  unfold mask_api_key, str_slice.
  rewrite py_slice_head by lia. rewrite py_slice_tail by lia.
  set (l := list_ascii_of_string api_key).
  assert (Hlen : length l = String.length api_key)
    by apply length_list_ascii_of_string.
  change (Z.to_nat 6) with 6%nat. change (Z.to_nat (- -4)) with 4%nat.
  split.
  - rewrite !length_string_append, !length_string_of_list_ascii.
    rewrite length_firstn, length_skipn.
    change (String.length "...") with 3%nat. lia.
  - intros Hshort.
    exists (string_of_list_ascii (firstn 6 l)),
           (string_of_list_ascii (firstn (6 - (length l - 4)) (skipn (length l - 4) l))),
           (string_of_list_ascii (skipn 6 l)).
    split.
    + do 2 f_equal. rewrite <- string_of_list_ascii_app. f_equal.
      rewrite <- (firstn_skipn (6 - (length l - 4)) (skipn (length l - 4) l)) at 1.
      f_equal. rewrite skipn_skipn. f_equal. lia.
    + rewrite <- string_of_list_ascii_app, firstn_skipn.
      subst l. by rewrite string_of_list_ascii_of_string.
Qed.

(** ** The assistant menu *)

Lemma In_preset_rows (presets : Presets) (keys : list string) (b : button) :
  In b (concat (map (fun preset =>
          [PresetButton (preset_name presets preset)
             ("change_mode_" ++ preset)%string]) keys)) ->
  exists key,
    b = PresetButton (preset_name presets key) ("change_mode_" ++ key)%string /\
    In key keys.
Proof.
  induction keys as [| k keys IH]; simpl; [ intros [] | ].
  intros [<- | Hin]; [ exists k; auto | ].
  destruct (IH Hin) as (key & -> & Hkey). exists key. auto.
Qed.

Lemma preset_buttons_rows (presets : Presets) (keys : list string) :
  length (preset_buttons (map (fun preset =>
            [PresetButton (preset_name presets preset)
               ("change_mode_" ++ preset)%string]) keys))
  = length keys.
Proof.
  unfold preset_buttons. induction keys as [| k keys IH]; simpl; congruence.
Qed.

Lemma preset_buttons_app (k1 k2 : list (list button)) :
  preset_buttons (k1 ++ k2) = preset_buttons k1 ++ preset_buttons k2.
Proof. unfold preset_buttons. by rewrite concat_app, List.filter_app. Qed.

(** X17: on a page that exists, from 1 to the number of pages, the menu
    shows between one and five presets, and its page turners lead to the
    neighbouring pages only and never out of range: "<<" to the page
    before, present only after page 1, and ">>" to the page after, present
    only before the last page. *)
Theorem assistant_navigation_stays_in_range (presets : Presets) (user : User)
    (p : Z) :
  let menu := assistant_menu presets user (Some p) in
  1 <= p <= menu.1.2 ->
  menu.1.1 = p /\
  (1 <= length (preset_buttons menu.2) <= 5)%nat /\
  forall label target,
    In (PageButton label target) (concat menu.2) ->
    1 <= target <= menu.1.2 /\
    ((label = "<<" /\ target = p - 1) \/ (label = ">>" /\ target = p + 1)).
Proof.
  unfold assistant_menu.
  set (keys := if String.eqb (rate_type user) "base" then _ else _).
  set (total := (Z.of_nat (length keys) + 5 - 1) / 5).
  assert (Htotal : 5 * total <= Z.of_nat (length keys) + 4).
  { subst total. replace (Z.of_nat (length keys) + 5 - 1)
      with (Z.of_nat (length keys) + 4) by lia.
    apply Z.mul_div_le. lia. }
  cbn [fst snd]. intros [Hlow Hhigh].
  assert (Hp : (p =? 0) = false) by (apply Z.eqb_neq; lia).
  rewrite Hp. split; [ reflexivity | ].
  set (rows := map _ (py_slice keys _ _)).
  set (nav := (if 1 <? p then _ else _) ++ _).
  assert (Hrows : (1 <= length (preset_buttons rows) <= 5)%nat).
  { subst rows. rewrite preset_buttons_rows. unfold py_slice.
    rewrite !slice_index_nonneg by lia.
    rewrite length_firstn, length_skipn. lia. }
  assert (Hnav : forall label target,
            In (PageButton label target) nav ->
            1 <= target <= total /\
            ((label = "<<" /\ target = p - 1) \/ (label = ">>" /\ target = p + 1))).
  { intros label target Hin. subst nav. apply in_app_or in Hin.
    destruct Hin as [Hin | Hin].
    - destruct (Z.ltb_spec 1 p); [ | destruct Hin ].
      destruct Hin as [[= <- <-] | []]. split; [ lia | by left ].
    - destruct (Z.ltb_spec p total); [ | destruct Hin ].
      destruct Hin as [[= <- <-] | []]. split; [ lia | by right ]. }
  assert (Hnone : forall label target, ~ In (PageButton label target) (concat rows)).
  { intros label target Hin. subst rows.
    apply In_preset_rows in Hin. destruct Hin as (key & Hkey & _). discriminate. }
  destruct (1 <? total).
  - split.
    + rewrite preset_buttons_app.
      assert (Hnavrow : preset_buttons [nav] = []).
      { unfold preset_buttons. simpl. rewrite app_nil_r. subst nav.
        rewrite List.filter_app. by destruct (1 <? p), (p <? total). }
      rewrite Hnavrow, app_nil_r. exact Hrows.
    + intros label target Hin. rewrite concat_app in Hin.
      apply in_app_or in Hin. destruct Hin as [Hin | Hin].
      * exfalso. by apply (Hnone label target).
      * simpl in Hin. rewrite app_nil_r in Hin. by apply Hnav.
  - split; [ exact Hrows | ].
    intros label target Hin. exfalso. by apply (Hnone label target).
Qed.

Lemma assistant_navigation_stays_in_range_witness :
  let presets : Presets :=
    map (fun k => (k, mkPreset k "Welcome"))
      ["a"; "b"; "c"; "d"; "e"; "f"; "g"; "h"; "i"; "j"; "k"; "l"] in
  let menu := assistant_menu presets paid_user (Some 2) in
  menu.1.1 = 2 /\
  (1 <= length (preset_buttons menu.2) <= 5)%nat /\
  forall label target,
    In (PageButton label target) (concat menu.2) ->
    1 <= target <= menu.1.2 /\
    ((label = "<<" /\ target = 2 - 1) \/ (label = ">>" /\ target = 2 + 1)).
Proof.
  apply (assistant_navigation_stays_in_range
           (map (fun k => (k, mkPreset k "Welcome"))
              ["a"; "b"; "c"; "d"; "e"; "f"; "g"; "h"; "i"; "j"; "k"; "l"])
           paid_user 2).
  vm_compute. split; discriminate.
Defined.

Lemma presets_get_nth (presets : Presets) :
  forall (j : nat) (key : string) (preset : Preset),
    List.NoDup (map fst presets) ->
    nth_error presets j = Some (key, preset) ->
    presets_get presets key = Some preset.
Proof.
  induction presets as [| [k p] rest IH]; intros j key preset Hkeys Hnth.
  - by destruct j.
  - simpl in Hkeys. apply List.NoDup_cons_iff in Hkeys as [Hfresh Hrest].
    destruct j as [| j]; simpl in *.
    + injection Hnth as -> ->. by rewrite String.eqb_refl.
    + destruct (String.eqb_spec k key) as [-> | _]; [ | by apply (IH j) ].
      exfalso. apply Hfresh.
      apply List.nth_error_In in Hnth.
      by apply (List.in_map fst) in Hnth.
Qed.

(** X18: for an account that is not on the [base] tier every preset of
    the table is offered on exactly the page its position gives: the
    preset at position [j] (from 0) is the button in row [j mod 5] of page
    [j / 5 + 1], with its own name and its key in the callback data. *)
Theorem every_preset_is_on_its_page (presets : Presets) (user : User) (j : nat)
    (key : string) (preset : Preset) :
  rate_type user <> "base" ->
  List.NoDup (map fst presets) ->
  nth_error presets j = Some (key, preset) ->
  nth_error (assistant_menu presets user (Some (Z.of_nat (j / 5) + 1))).2 (j mod 5)
  = Some [PresetButton (p_name preset) ("change_mode_" ++ key)%string].
Proof.
  intros Htier Hkeys Hnth. unfold assistant_menu.
  apply String.eqb_neq in Htier. rewrite Htier.
  assert (Hpage : (Z.of_nat (j / 5) + 1 =? 0) = false) by (apply Z.eqb_neq; lia).
  rewrite Hpage. cbn [snd].
  assert (Hj : (j < length (map fst presets))%nat).
  { rewrite length_map. apply List.nth_error_Some. by rewrite Hnth. }
  pose proof (Nat.div_mod_eq j 5) as Hdiv.
  pose proof (Nat.mod_upper_bound j 5 ltac:(lia)) as Hmod.
  set (rows := map _ (py_slice _ _ _)).
  assert (Hrow : nth_error rows (j mod 5)
                 = Some [PresetButton (p_name preset) ("change_mode_" ++ key)%string]).
  { subst rows. rewrite List.nth_error_map. unfold py_slice.
    rewrite !slice_index_nonneg by lia.
    rewrite List.nth_error_firstn.
    assert (Hin : (j mod 5 <? Nat.min (length (map fst presets))
                     (Z.to_nat (((Z.of_nat (j / 5) + 1 - 1) * 5 + 5)
                                `min` Z.of_nat (length (map fst presets))))
                   - Nat.min (length (map fst presets))
                       (Z.to_nat ((Z.of_nat (j / 5) + 1 - 1) * 5)))%nat = true)
      by (apply Nat.ltb_lt; lia).
    rewrite Hin, List.nth_error_skipn.
    replace (Nat.min (length (map fst presets))
               (Z.to_nat ((Z.of_nat (j / 5) + 1 - 1) * 5)) + j mod 5)%nat
      with j by lia.
    rewrite List.nth_error_map, Hnth. simpl. unfold preset_name.
    by rewrite (presets_get_nth presets j key preset Hkeys Hnth). }
  assert (Hlen : (j mod 5 < length rows)%nat).
  { apply List.nth_error_Some. by rewrite Hrow. }
  destruct (1 <? _); [ | exact Hrow ].
  by rewrite List.nth_error_app1.
Qed.

Lemma every_preset_is_on_its_page_witness :
  let presets : Presets :=
    map (fun k => (k, mkPreset k "Welcome"))
      ["a"; "b"; "c"; "d"; "e"; "f"; "g"; "h"; "i"; "j"; "k"; "l"] in
  nth_error (assistant_menu presets paid_user (Some (Z.of_nat (7 / 5) + 1))).2 (7 mod 5)
  = Some [PresetButton (p_name (mkPreset "h" "Welcome")) ("change_mode_" ++ "h")%string].
Proof.
  apply (every_preset_is_on_its_page
           (map (fun k => (k, mkPreset k "Welcome"))
              ["a"; "b"; "c"; "d"; "e"; "f"; "g"; "h"; "i"; "j"; "k"; "l"])
           paid_user 7 "h" (mkPreset "h" "Welcome")).
  - discriminate.
  - vm_compute. repeat constructor; simpl; intuition discriminate.
  - reflexivity.
Defined.

(** X19: an account on the [base] tier is offered the first five presets
    of the table and nothing else: whatever page is asked for, there is at
    most one page, no page turner, and every button is the button of one
    of the first five presets. *)
Theorem base_tier_sees_first_five (presets : Presets) (user : User)
    (page : option Z) :
  rate_type user = "base" ->
  let menu := assistant_menu presets user page in
  menu.1.2 <= 1 /\
  forall b, In b (concat menu.2) ->
    exists key,
      b = PresetButton (preset_name presets key) ("change_mode_" ++ key)%string /\
      In key (firstn 5 (map fst presets)).
Proof.
  intros Htier. unfold assistant_menu. rewrite Htier, String.eqb_refl.
  cbn [fst snd].
  rewrite (py_slice_head (map fst presets) 5) by lia.
  change (Z.to_nat 5) with 5%nat.
  set (keys := firstn 5 (map fst presets)).
  assert (Hlen : (length keys <= 5)%nat) by (subst keys; rewrite length_firstn; lia).
  assert (Htotal : (Z.of_nat (length keys) + 5 - 1) / 5 < 2)
    by (apply Z.div_lt_upper_bound; lia).
  split; [ lia | ].
  assert (Hone : (1 <? (Z.of_nat (length keys) + 5 - 1) / 5) = false)
    by (apply Z.ltb_ge; lia).
  rewrite Hone. intros b Hin.
  apply In_preset_rows in Hin. destruct Hin as (key & -> & Hkey).
  exists key. split; [ reflexivity | ]. by apply In_py_slice in Hkey.
Qed.

Lemma base_tier_sees_first_five_witness :
  let presets : Presets :=
    map (fun k => (k, mkPreset k "Welcome"))
      ["a"; "b"; "c"; "d"; "e"; "f"; "g"; "h"; "i"; "j"; "k"; "l"] in
  let menu := assistant_menu presets (sample_user 7) (Some 2) in
  menu.1.2 <= 1 /\
  forall b, In b (concat menu.2) ->
    exists key,
      b = PresetButton (preset_name presets key) ("change_mode_" ++ key)%string /\
      In key (firstn 5 (map fst presets)).
Proof.
  apply (base_tier_sees_first_five
           (map (fun k => (k, mkPreset k "Welcome"))
              ["a"; "b"; "c"; "d"; "e"; "f"; "g"; "h"; "i"; "j"; "k"; "l"])
           (sample_user 7) (Some 2)).
  reflexivity.
Defined.

(** ** Preference callbacks *)

(** X20: the model preference can be changed on the ["gpt-4"] tier only.
    For an account of any other tier the callback writes nothing, whatever
    model it names; on the ["gpt-4"] tier the account ends with the named
    model as its default; in both cases no other row is touched. *)
Theorem change_model_needs_gpt4_tier (db : DB) (effective_chat : Z)
    (model : string) (user : User) :
  get_user db effective_chat = Some user ->
  exists db' reply,
    change_model db effective_chat model = Done (db', reply) /\
    (rate_type user <> "gpt-4" -> db' = db) /\
    (rate_type user = "gpt-4" ->
     (default_model <$> db' !! effective_chat) = Some model) /\
    (forall cid, cid <> effective_chat -> db' !! cid = db !! cid).
Proof.
  intros Hrow. unfold change_model. rewrite Hrow.
  destruct (String.eqb_spec (default_model user) model) as [Hsame | Hother].
  - exists db, NoReply. split; [ reflexivity | ]. split; [ done | ].
    split; [ | done ]. intros _. unfold get_user in Hrow. by rewrite Hrow, <- Hsame.
  - destruct (String.eqb_spec (rate_type user) "gpt-4") as [Htier | Htier]; simpl.
    + eexists _, _. split; [ reflexivity | ]. split; [ done | ]. split.
      * intros _. by rewrite (update_user_field_present _ _ _ _ _ Hrow).
      * intros cid Hne. apply update_user_field_other. congruence.
    + exists db, NeedsGpt4Tier. split; [ reflexivity | ]. split; done.
Qed.

Lemma change_model_needs_gpt4_tier_witness :
  exists db' reply,
    change_model {[ 7 := sample_user 7 ]} 7 "gpt4_turbo" = Done (db', reply) /\
    (rate_type (sample_user 7) <> "gpt-4" -> db' = {[ 7 := sample_user 7 ]}) /\
    (rate_type (sample_user 7) = "gpt-4" ->
     (default_model <$> db' !! 7) = Some "gpt4_turbo") /\
    (forall cid, cid <> 7 -> db' !! cid = ({[ 7 := sample_user 7 ]} : DB) !! cid).
Proof.
  apply (change_model_needs_gpt4_tier {[ 7 := sample_user 7 ]} 7 "gpt4_turbo"
           (sample_user 7)).
  reflexivity.
Defined.

(** X21: the assistant callback does not look at the tier.  For a key of
    the presets table the account of the chat ends with that preset as its
    default, on the [base] tier too and also when the preset is not among
    the five the menu offers there; a key that is not in the table raises
    before anything is written. *)
Theorem change_mode_accepts_any_preset (presets : Presets) (db : DB)
    (effective_chat : Z) (mode : string) (user : User) :
  get_user db effective_chat = Some user ->
  (forall preset, presets_get presets mode = Some preset ->
     exists db',
       change_mode presets db effective_chat mode
       = Done (db', p_welcome_message preset) /\
       (default_preset <$> db' !! effective_chat) = Some mode /\
       (forall cid, cid <> effective_chat -> db' !! cid = db !! cid)) /\
  (presets_get presets mode = None ->
   change_mode presets db effective_chat mode = Raised KeyError).
Proof.
  intros Hrow. unfold change_mode. split.
  - intros preset ->. eexists. split; [ reflexivity | ]. split.
    + by rewrite (update_user_field_present _ _ _ _ _ Hrow).
    + intros cid Hne. apply update_user_field_other. congruence.
  - by intros ->.
Qed.

Lemma change_mode_accepts_any_preset_witness :
  let presets : Presets :=
    map (fun k => (k, mkPreset k "Welcome"))
      ["a"; "b"; "c"; "d"; "e"; "f"; "g"; "h"; "i"; "j"; "k"; "l"] in
  let db : DB := {[ 7 := sample_user 7 ]} in
  (forall preset, presets_get presets "h" = Some preset ->
     exists db',
       change_mode presets db 7 "h" = Done (db', p_welcome_message preset) /\
       (default_preset <$> db' !! 7) = Some "h" /\
       (forall cid, cid <> 7 -> db' !! cid = db !! cid)) /\
  (presets_get presets "h" = None ->
   change_mode presets db 7 "h" = Raised KeyError).
Proof.
  apply (change_mode_accepts_any_preset
           (map (fun k => (k, mkPreset k "Welcome"))
              ["a"; "b"; "c"; "d"; "e"; "f"; "g"; "h"; "i"; "j"; "k"; "l"])
           {[ 7 := sample_user 7 ]} 7 "h" (sample_user 7)).
  reflexivity.
Defined.

(** ** Polling a prediction *)

Lemma poll_in_progress (waiting : list Prediction) :
  forall (rest : list Prediction) (slept : nat),
    Forall (fun r => in_progress r = true) waiting ->
    poll (waiting ++ rest) slept = poll rest (slept + length waiting).
Proof.
  induction waiting as [| r waiting IH]; intros rest slept Hwaiting.
  - simpl. f_equal. lia.
  - inversion Hwaiting as [| r' waiting' Hr Hrest]; subst.
    cbn [app poll length]. rewrite Hr.
    assert (Hnot : String.eqb (status r) "succeeded" = false).
    { unfold in_progress in Hr. apply orb_true_iff in Hr.
      destruct Hr as [Hr | Hr]; apply String.eqb_eq in Hr; by rewrite Hr. }
    rewrite Hnot, (IH rest (S slept) Hrest). f_equal. lia.
Qed.

(** X22: [run] returns or raises on the first answer whose status is
    neither ["processing"] nor ["starting"]: it returns that answer's
    output when the status is ["succeeded"] and raises with the answer
    otherwise, after one sleep of five seconds for each answer before it.
    As long as every answer is still in progress it goes on polling: there
    is no limit on the number of rounds. *)
Theorem run_settles_on_first_final_answer (url : string)
    (waiting : list Prediction) (answer : Prediction) (rest : list Prediction) :
  Forall (fun r => in_progress r = true) waiting ->
  in_progress answer = false ->
  run (Some url) (waiting ++ answer :: rest)
  = Done (if String.eqb (status answer) "succeeded"
          then RunReturned (output answer) (length waiting)
          else RunRaised answer (length waiting)) /\
  run (Some url) waiting = Done (RunPolling (length waiting)).
Proof.
  intros Hwaiting Hfinal. unfold run. split; f_equal.
  - rewrite (poll_in_progress waiting (answer :: rest) 0 Hwaiting).
    cbn [poll]. rewrite Hfinal. by destruct (String.eqb (status answer) "succeeded").
  - rewrite <- (app_nil_r waiting) at 1.
    by rewrite (poll_in_progress waiting [] 0 Hwaiting).
Qed.

Lemma run_settles_on_first_final_answer_witness :
  let waiting := [mkPrediction "starting" []; mkPrediction "processing" []] in
  let answer := mkPrediction "succeeded" ["https://example.org/out.png"] in
  run (Some "url") (waiting ++ answer :: [])
  = Done (if String.eqb (status answer) "succeeded"
          then RunReturned (output answer) (length waiting)
          else RunRaised answer (length waiting)) /\
  run (Some "url") waiting = Done (RunPolling (length waiting)).
Proof.
  apply (run_settles_on_first_final_answer "url"
           [mkPrediction "starting" []; mkPrediction "processing" []]
           (mkPrediction "succeeded" ["https://example.org/out.png"]) []).
  - repeat constructor.
  - reflexivity.
Defined.

(** ** Broadcasts *)

Lemma mail_loop_prefix (kind : attachment) (message : string)
    (users : list User) :
  forall (pending : list outcome),
    (exists k, attempted (mail_loop users kind message pending).1
               = firstn k (map chat_id users)) /\
    ((mail_loop users kind message pending).2 <> None ->
     attempted (mail_loop users kind message pending).1 = map chat_id users) /\
    (reports_delivered (mail_loop users kind message pending).1 ->
     (mail_loop users kind message pending).2 <> None) /\
    (forall o, ~ In (MailDone o) (mail_loop users kind message pending).1).
Proof.
  induction users as [| user rest IH]; intros pending.
  - simpl. split; [ by exists 0%nat | ]. split; [ done | ].
    split; [ done | ]. intros o [].
  - cbn [mail_loop]. destruct (next_outcome pending) as [o pending1].
    assert (Hok : forall (o1 : outcome) (extra : list mail_event) pending',
              (forall o', ~ In (MailDone o') extra) ->
              attempted extra = [] ->
              let r := mail_loop rest kind message pending' in
              (exists k, attempted (MailSent (chat_id user) kind message o1
                                      :: extra ++ r.1)
                         = firstn k (map chat_id (user :: rest))) /\
              (r.2 <> None ->
               attempted (MailSent (chat_id user) kind message o1 :: extra ++ r.1)
               = map chat_id (user :: rest)) /\
              (reports_delivered (MailSent (chat_id user) kind message o1
                                    :: extra ++ r.1) -> r.2 <> None) /\
              (forall o', ~ In (MailDone o')
                            (MailSent (chat_id user) kind message o1 :: extra ++ r.1))).
    { intros o1 extra pending' Hextra Hnone r.
      destruct (IH pending') as ((k & Hk) & Hall & Hrep & Hdone). subst r.
      assert (Hatt : forall l, attempted (extra ++ l) = attempted l).
      { intros l. clear -Hnone. induction extra as [| e extra IHe]; [ done | ].
        destruct e; simpl in *; try by apply IHe. discriminate. }
      cbn [attempted map]. rewrite Hatt. repeat split.
      - exists (S k). simpl. by rewrite Hk.
      - intros Hsome. by rewrite (Hall Hsome).
      - intros Hreports. apply Hrep. intros chat o' Hin.
        apply (Hreports chat o'). right. apply in_or_app. by right.
      - intros o' [Hin | Hin]; [ discriminate | ].
        apply in_app_or in Hin. destruct Hin as [Hin | Hin];
          [ by apply (Hextra o') | by apply (Hdone o') ]. }
    assert (Hstop : forall o1 o2,
              o2 <> Ok ->
              (exists k, attempted [MailSent (chat_id user) kind message o1;
                                    MailFailureReported (chat_id user) o2]
                         = firstn k (map chat_id (user :: rest))) /\
              (@None (list outcome) <> None ->
               attempted [MailSent (chat_id user) kind message o1;
                          MailFailureReported (chat_id user) o2]
               = map chat_id (user :: rest)) /\
              (reports_delivered [MailSent (chat_id user) kind message o1;
                                  MailFailureReported (chat_id user) o2] ->
               @None (list outcome) <> None) /\
              (forall o', ~ In (MailDone o')
                            [MailSent (chat_id user) kind message o1;
                             MailFailureReported (chat_id user) o2])).
    { intros o1 o2 Hfail. repeat split.
      - by exists 1%nat.
      - done.
      - intros Hreports. exfalso. apply Hfail.
        apply (Hreports (chat_id user) o2). right. by left.
      - intros o' [Hin | [Hin | []]]; discriminate. }
    destruct o.
    { pose proof (Hok Ok [] pending1) as Hcase.
      destruct (mail_loop rest kind message pending1) as [events remaining].
      apply Hcase; [ intros o' [] | reflexivity ]. }
    all: destruct (next_outcome pending1) as [o2 pending2]; destruct o2.
    all: try (apply Hstop; discriminate).
    all: match goal with
         | |- context [MailSent _ _ _ ?o1 :: MailFailureReported _ Ok :: _] =>
             pose proof (Hok o1 [MailFailureReported (chat_id user) Ok] pending2)
               as Hcase
         end.
    all: destruct (mail_loop rest kind message pending2) as [events remaining].
    all: apply Hcase; [ intros o' [Hin | []]; discriminate | reflexivity ].
Qed.

Lemma attempted_app (l1 l2 : list mail_event) :
  attempted (l1 ++ l2) = attempted l1 ++ attempted l2.
Proof.
  induction l1 as [| e l1 IH]; [ reflexivity | ].
  destruct e; simpl; try exact IH. by rewrite IH.
Qed.

(** X23: a broadcast tries the users of the group one after the other, in
    the order of the query and each at most once: the chats tried are
    always a prefix of the group.  They are the whole group whenever the
    closing message is sent, and a delivery that fails does not stop the
    broadcast: as long as each report of a failure reaches the admin, all
    users are tried and the closing message, which says the messages were
    sent, follows. *)
Theorem mail_tries_a_prefix_of_the_group (db : DB) (args : list string)
    (kind : attachment) (pending : list outcome) (users : list User) :
  (3 <= length args)%nat ->
  mail_recipients db (nth 1 args "") = Some users ->
  let events := mail db true args kind pending in
  (exists k, attempted events = firstn k (map chat_id users)) /\
  ((exists o, In (MailDone o) events) -> attempted events = map chat_id users) /\
  (reports_delivered events ->
   (exists o, In (MailDone o) events) /\ attempted events = map chat_id users).
Proof.
  intros Hargs Hgroup events. subst events. unfold mail. simpl negb. cbv iota.
  assert (Hlong : (length args <? 3)%nat = false) by (apply Nat.ltb_ge; lia).
  rewrite Hlong, Hgroup.
  destruct (mail_loop_prefix kind (String.concat " " (skipn 2 args)) users pending)
    as (Hprefix & Hall & Hreports & Hdone).
  destruct (mail_loop users kind (String.concat " " (skipn 2 args)) pending)
    as [events remaining].
  simpl in Hprefix, Hall, Hreports, Hdone.
  destruct remaining as [remaining |].
  - assert (Hatt : attempted (events ++ [MailDone (next_outcome remaining).1])
                   = attempted events)
      by (rewrite attempted_app; simpl; by rewrite app_nil_r).
    rewrite Hatt. split; [ exact Hprefix | ].
    split; [ intros _; by apply Hall | ].
    intros _. split; [ | by apply Hall ].
    eexists. apply in_or_app. right. by left.
  - split; [ exact Hprefix | ]. split.
    + intros [o Hin]. exfalso. by apply (Hdone o).
    + intros Hrep. exfalso. by apply Hreports.
Qed.

Lemma mail_tries_a_prefix_of_the_group_witness :
  let db : DB := {[ 7 := sample_user 7; 8 := setattr (sample_user 8) Col_is_free false ]} in
  let events := mail db true ["/mail"; "free"; "Hello"; "there"] TextOnly [Failed] in
  (exists k, attempted events = firstn k (map chat_id [sample_user 7])) /\
  ((exists o, In (MailDone o) events) ->
   attempted events = map chat_id [sample_user 7]) /\
  (reports_delivered events ->
   (exists o, In (MailDone o) events) /\
   attempted events = map chat_id [sample_user 7]).
Proof.
  apply (mail_tries_a_prefix_of_the_group
           {[ 7 := sample_user 7; 8 := setattr (sample_user 8) Col_is_free false ]}
           ["/mail"; "free"; "Hello"; "there"] TextOnly [Failed] [sample_user 7]).
  - simpl. lia.
  - reflexivity.
Defined.

(** ** Voice messages *)

Lemma reply_or_raise_store (db : DB) (w : world) (c : call) :
  (reply_or_raise db w c).1 = db.
Proof.
  unfold reply_or_raise. destruct (transport w c) as [o w1]. by destruct o.
Qed.


(** A voice message of an account that is not on the ["gpt-4"] tier is
    admitted on the end date and the [whisper_rate] alone. *)
Lemma transcribe_admitted (U : utils) (T : transcribe_texts) (today : Z)
    (db : DB) (w : world) (upd : Update) (user : User) (v : Voice) :
  get_user db (effective_chat_id upd) = Some user ->
  rate_type user <> "gpt-4" ->
  today <= rate_end_date user ->
  0 < whisper_rate user ->
  transcribe U T today db w upd true false v
  = transcribe_execute U T db w upd user v.
Proof.
  intros Hrow Htier Hlive Hpos. unfold transcribe. simpl negb. cbv iota.
  rewrite (positive_balance_is_allowed db today (effective_chat_id upd) user
             whisper_kind Hrow Hlive Hpos).
  simpl. apply String.eqb_neq in Htier. by rewrite Htier.
Qed.



(** X25: the transcription is charged as soon as it is there, before
    anything is sent.  For an admitted voice message, whatever Telegram
    does: if [openai.transcribe] raises nothing is written; if it returns
    and the chat call that follows raises, the sender is charged the one
    unit of [whisper_rate] and nothing else; and a message that could not
    be downloaded or converted costs nothing. *)
Theorem transcription_is_charged_when_done (U : utils) (T : transcribe_texts)
    (today : Z) (db : DB) (w : world) (upd : Update) (user : User)
    (text : string) (v : Voice) :
  get_user db (effective_chat_id upd) = Some user ->
  rate_type user <> "gpt-4" ->
  today <= rate_end_date user ->
  0 < whisper_rate user ->
  (downloaded v && converted v = false ->
   (transcribe U T today db w upd true false v).1 = db) /\
  (transcribe U T today db w upd true false
     (mkVoice true true None (echo_only v) (chat_response v))).1 = db /\
  (transcribe U T today db w upd true false
     (mkVoice true true (Some text) false None)).1
  = debit_row db user (from_user_id upd) whisper_kind 1.
Proof.
  intros Hrow Htier Hlive Hpos.
  rewrite !(transcribe_admitted U T today db w upd user _ Hrow Htier Hlive Hpos).
  unfold transcribe_execute, transcribe_failed. simpl.
  split; [ | split ]; try apply reply_or_raise_store.
  intros Hmedia. destruct (downloaded v); simpl in *;
    [ rewrite Hmedia; simpl | ]; apply reply_or_raise_store.
Qed.

Lemma transcription_is_charged_when_done_witness :
  let db : DB := {[ 7 := sample_user 7 ]} in
  let T := mkTranscribeTexts "download failed" "wrong media type"
             "transcription failed" (fun t => t) (fun t r => (t ++ r)%string) in
  let upd := mkUpdate 7 7 true true in
  let v := mkVoice true false None true None in
  (downloaded v && converted v = false ->
   (transcribe sample_utils T 50 db (fresh_world []) upd true false v).1 = db) /\
  (transcribe sample_utils T 50 db (fresh_world []) upd true false
     (mkVoice true true None (echo_only v) (chat_response v))).1 = db /\
  (transcribe sample_utils T 50 db (fresh_world []) upd true false
     (mkVoice true true (Some "Hello") false None)).1
  = debit_row db (sample_user 7) (from_user_id upd) whisper_kind 1.
Proof.
  apply (transcription_is_charged_when_done sample_utils
           (mkTranscribeTexts "download failed" "wrong media type"
              "transcription failed" (fun t => t) (fun t r => (t ++ r)%string))
           50 {[ 7 := sample_user 7 ]} (fresh_world []) (mkUpdate 7 7 true true)
           (sample_user 7) "Hello" (mkVoice true false None true None)).
  - reflexivity.
  - discriminate.
  - simpl. lia.
  - simpl. lia.
Defined.

(** ** Requests from group chats, and streamed answers *)

(** What [debit] stands for: the table after a chat request that is let
    through, answered in one piece and delivered is the table after one
    [debit] of the answer's token count, read from the row of the chat and
    written to the row of the sender. *)
Lemma answered_request_is_a_debit (U : utils) (today : Z) (db : DB)
    (w : world) (upd : Update) (user : User) (response : string)
    (total_tokens : Z) :
  is_new_message upd = true ->
  passes_group_filter upd = true ->
  get_user db (effective_chat_id upd) = Some user ->
  today <= rate_end_date user ->
  0 < balance user (chat_kind user) ->
  is_direct_result U response = false ->
  pending w = [] ->
  debit db (effective_chat_id upd) (from_user_id upd) (chat_kind user) total_tokens
  = Done (prompt U today db w upd (Answered (Some (response, total_tokens)))).1.
Proof.
  intros Hnew Hfilter Hrow Hlive Hpos Hplain Hcalm.
  unfold debit. rewrite Hrow. f_equal.
  unfold prompt. rewrite Hnew, Hrow, Hfilter. simpl.
  rewrite (positive_balance_is_allowed db today (effective_chat_id upd) user
             (chat_kind user) Hrow Hlive Hpos).
  simpl. unfold wrap_with_indicator. rewrite Hplain.
  destruct (send_chunks_calm (split_into_chunks U response) w true Hcalm)
    as [Hsent _].
  destruct (send_chunks w true (split_into_chunks U response)) as [sent w1].
  simpl in Hsent. subst sent. reflexivity.
Qed.








